(** * Meal-planner backend: the request handlers of server.js

    A shallow embedding of the five Express handlers of [server.js] and of
    the JavaScript operations they rely on (property lookup, truthiness,
    template-literal string conversion, try/catch around awaited calls),
    together with the properties of the handlers stated in the specification.

    The external collaborators (the text-generation client, the document
    store, the blob store, the clock, the console and the HTTP response
    object) are not part of the repository.  Handlers are therefore written
    as command trees over the calls they make; the answers to those calls
    are chosen by an environment, and every theorem quantifies over all
    environments. *)

From Stdlib Require Import ZArith Ascii DecimalString.
From Stdlib Require DecimalPos DecimalZ.
From stdpp Require Import gmap strings list fin_maps.

Set Warnings "-register-all".

Local Open Scope string_scope.
Local Open Scope Z_scope.

(** ** JavaScript values *)

Module JS.

(** A Number: not-a-number, an infinity, or the finite value
    [(-1)^neg * m * 2^e].  Both zeros are [Finite _ 0 _]. *)
Inductive number : Type :=
  | NaN
  | Infinity (neg : bool)
  | Finite (neg : bool) (m : N) (e : Z).

(** The values that reach the handlers: what [express.json()] produces from
    a JSON body (null, booleans, numbers, strings, arrays, plain objects),
    [undefined] for a property that is not there, and the [Date] objects the
    handlers create themselves.  An object is its list of own properties in
    insertion order. *)
Inductive value : Type :=
  | VUndefined
  | VNull
  | VBool (b : bool)
  | VNum (n : number)
  | VStr (s : string)
  | VDate (millis : Z)
  | VArr (items : list value)
  | VObj (props : list (string * value)).

Definition object : Type := list (string * value).

(** What an awaited call or a conversion can raise. *)
Inductive error : Type :=
  | TypeError (msg : string)
  | ServiceError (msg : string).

Inductive result (A : Type) : Type :=
  | Ok (a : A)
  | Thrown (e : error).
Arguments Ok {A} a.
Arguments Thrown {A} e.

Definition rbind {A B} (r : result A) (f : A → result B) : result B :=
  match r with
  | Ok a => f a
  | Thrown e => Thrown e
  end.

(** Own-property lookup [o.key] on a plain object: the first binding. *)
Fixpoint obj_get (key : string) (o : object) : option value :=
  match o with
  | [] => None
  | (k, v) :: rest => if String.eqb k key then Some v else obj_get key rest
  end.

(** Reading a property that may be missing, as destructuring
    [const { key } = obj] does: a missing property reads as [undefined]. *)
Definition prop (key : string) (o : object) : value :=
  match obj_get key o with
  | Some v => v
  | None => VUndefined
  end.

(** ToBoolean. *)
Definition number_truthy (n : number) : bool :=
  match n with
  | NaN => false
  | Infinity _ => true
  | Finite _ m _ => negb (m =? 0)%N
  end.

Definition truthy (v : value) : bool :=
  match v with
  | VUndefined | VNull => false
  | VBool b => b
  | VNum n => number_truthy n
  | VStr s => negb (String.eqb s "")
  | VDate _ | VArr _ | VObj _ => true
  end.

(** Number::toString on an integral Number of magnitude below 10^21, such
    as [Date.now()]: its decimal digits. *)
Definition Z_toString (z : Z) : string :=
  NilZero.string_of_int (Z.to_int z).

Fixpoint join (sep : string) (parts : list string) : string :=
  match parts with
  | [] => ""
  | [p] => p
  | p :: rest => p +:+ sep +:+ join sep rest
  end.

Fixpoint sequence {A} (rs : list (result A)) : result (list A) :=
  match rs with
  | [] => Ok []
  | r :: rest => rbind r (λ a, rbind (sequence rest) (λ l, Ok (a :: l)))
  end.

(** Number::toString and Date.prototype.toString are left to the host: the
    first is the shortest round-trip decimal of a double, the second depends
    on the time zone of the process. *)
Record host : Type := {
  Number_toString : number → string;
  Date_toString : Z → string
}.

(** ToString, as applied to each substitution of a template literal.
    A plain object converts through [Object.prototype.toString] unless it
    has an own property named toString: that property, coming from JSON, is
    not callable, [valueOf] then yields the object itself, and the
    conversion throws a TypeError.  An array converts through [join], which
    renders [null] and [undefined] elements as the empty string. *)
Fixpoint ToString (h : host) (v : value) : result string :=
  match v with
  | VUndefined => Ok "undefined"
  | VNull => Ok "null"
  | VBool true => Ok "true"
  | VBool false => Ok "false"
  | VNum n => Ok (Number_toString h n)
  | VStr s => Ok s
  | VDate t => Ok (Date_toString h t)
  | VArr items =>
      rbind (sequence (map (λ x, match x with
                                 | VUndefined | VNull => Ok ""
                                 | _ => ToString h x
                                 end) items))
            (λ parts, Ok (join "," parts))
  | VObj props =>
      match obj_get "toString" props with
      | Some _ => Thrown (TypeError "Cannot convert object to primitive value")
      | None => Ok "[object Object]"
      end
  end.

End JS.
Import JS.

(** ** Programs: calls to the outside, exceptions, try/catch *)

(** What [(await result.response).text()] does on the object returned by
    [model.generateContent]: it yields the produced text or throws. *)
Record generation : Type := { response_text : result string }.

(** [req.file] as multer's memory storage fills it in. *)
Record File : Type := {
  originalname : string;
  mimetype : string;
  buffer : list Byte.byte
}.

(** A reference into the bucket, as returned by [ref(storage, path)]; the
    handler only reads its [fullPath].  The storage SDK is not part of the
    repository: the path handed to [ref] is taken as the full path. *)
Record StorageReference : Type := { fullPath : string }.

Definition ref (path : string) : StorageReference := {| fullPath := path |}.

(** The calls a handler makes, indexed by what they return. *)
Inductive call : Type → Type :=
  | GenerateContent (prompt : string) : call generation
  | DateNow : call Z
  | NewDate : call Z
  | AddDoc (coll : string) (data : object) : call string
  | GetDocs (coll : string) : call (list (string * object))
  | UploadBytes (path : string) (bytes : list Byte.byte) (contentType : string) : call unit
  | ConsoleError (label : string) (e : error) : call unit
  | Respond (status : Z) (body : object) : call unit.

(** A handler body: it returns, throws, or makes a call and continues with
    the call's outcome. *)
Inductive prog (R : Type) : Type :=
  | Ret (r : R)
  | Throw (e : error)
  | Call {X : Type} (c : call X) (k : result X → prog R).
Arguments Ret {R} r.
Arguments Throw {R} e.
Arguments Call {R X} c k.

Fixpoint bind {A B} (p : prog A) (f : A → prog B) : prog B :=
  match p with
  | Ret a => f a
  | Throw e => Throw e
  | Call c k => Call c (λ r, bind (k r) f)
  end.

(** [try { p } catch (error) { h error }] *)
Fixpoint try_catch {A} (p : prog A) (h : error → prog A) : prog A :=
  match p with
  | Ret a => Ret a
  | Throw e => h e
  | Call c k => Call c (λ r, try_catch (k r) h)
  end.

(** A call whose failure is thrown at the call site ([await f(...)], or a
    plain call). *)
Definition perform {X} (c : call X) : prog X :=
  Call c (λ r, match r with Ok x => Ret x | Thrown e => Throw e end).

Definition lift {A} (r : result A) : prog A :=
  match r with
  | Ok a => Ret a
  | Thrown e => Throw e
  end.

#[global] Instance prog_ret : MRet prog := λ A a, Ret a.
#[global] Instance prog_bind : MBind prog := λ A B f p, bind p f.

(** [res.json(body)] answers with status 200, [res.status(s).json(body)]
    with status [s]. *)
Definition res_json (body : object) : prog unit := perform (Respond 200 body).
Definition res_status_json (status : Z) (body : object) : prog unit :=
  perform (Respond status body).
Definition console_error (label : string) (e : error) : prog unit :=
  perform (ConsoleError label e).

(** ** The outside world *)

Record blob : Type := { blob_bytes : list Byte.byte; blob_contentType : string }.

(** The state held by the external services: the collections of the
    document store (collection name, then document id) and the bucket of the
    blob store (full path). *)
Record world : Type := {
  db : gmap string (gmap string object);
  bucket : gmap string blob
}.

Definition empty_world : world := {| db := ∅; bucket := ∅ |}.

Definition docs (w : world) (coll : string) : gmap string object :=
  default ∅ (db w !! coll).

Definition put_doc (coll id : string) (data : object) (w : world) : world :=
  {| db := <[coll := <[id := data]> (docs w coll)]> (db w); bucket := bucket w |}.

Definition put_blob (path : string) (b : blob) (w : world) : world :=
  {| db := db w; bucket := <[path := b]> (bucket w) |}.

(** What the environment decides at one call: whether the service fails,
    what the clock shows, which id the store generates, what the model
    produces.  A call reads the fields that concern it. *)
Record choice : Type := {
  fault : option error;
  clock : Z;
  new_id : string;
  produced : generation
}.

(** The outcome of a call and its effect on the world.  A failed call
    changes nothing.  [addDoc] creates a document under the generated id and
    fails when that id is taken; [uploadBytes] writes (or overwrites) the
    blob at the path; [getDocs] returns every document of the collection, in
    the order the map enumerates them.  The clock, the console and the
    response object do not fail. *)
Definition answer {X} (ch : choice) (w : world) (c : call X) : result X * world :=
  match c in call X return result X * world with
  | GenerateContent _ =>
      match fault ch with
      | Some e => (Thrown e, w)
      | None => (Ok (produced ch), w)
      end
  | DateNow => (Ok (clock ch), w)
  | NewDate => (Ok (clock ch), w)
  | AddDoc coll data =>
      match fault ch with
      | Some e => (Thrown e, w)
      | None =>
          match docs w coll !! new_id ch with
          | Some _ => (Thrown (ServiceError "already-exists"), w)
          | None => (Ok (new_id ch), put_doc coll (new_id ch) data w)
          end
      end
  | GetDocs coll =>
      match fault ch with
      | Some e => (Thrown e, w)
      | None => (Ok (map_to_list (docs w coll)), w)
      end
  | UploadBytes path bytes contentType =>
      match fault ch with
      | Some e => (Thrown e, w)
      | None =>
          (Ok (), put_blob path {| blob_bytes := bytes;
                                   blob_contentType := contentType |} w)
      end
  | ConsoleError _ _ => (Ok (), w)
  | Respond _ _ => (Ok (), w)
  end.

(** One entry of an execution trace: a call together with its outcome. *)
Inductive event : Type :=
  | EGenerateContent (prompt : string) (r : result generation)
  | EDateNow (r : result Z)
  | ENewDate (r : result Z)
  | EAddDoc (coll : string) (data : object) (r : result string)
  | EGetDocs (coll : string) (r : result (list (string * object)))
  | EUploadBytes (path : string) (bytes : list Byte.byte) (contentType : string)
                 (r : result unit)
  | EConsoleError (label : string) (e : error)
  | ERespond (status : Z) (body : object).

Definition log {X} (c : call X) : result X → event :=
  match c in call X return result X → event with
  | GenerateContent p => λ r, EGenerateContent p r
  | DateNow => λ r, EDateNow r
  | NewDate => λ r, ENewDate r
  | AddDoc coll data => λ r, EAddDoc coll data r
  | GetDocs coll => λ r, EGetDocs coll r
  | UploadBytes path bytes ct => λ r, EUploadBytes path bytes ct r
  | ConsoleError label e => λ _, EConsoleError label e
  | Respond status body => λ _, ERespond status body
  end.

(** Running a handler to completion: the environment's [n]-th choice
    settles the [n]-th call. *)
Fixpoint run {R} (env : nat → choice) (n : nat) (w : world) (p : prog R)
  : list event * world * result R :=
  match p with
  | Ret r => ([], w, Ok r)
  | Throw e => ([], w, Thrown e)
  | Call c k =>
      let '(a, w1) := answer (env n) w c in
      let '(t, w2, r) := run env (S n) w1 (k a) in
      (log c a :: t, w2, r)
  end.

Definition trace_of {R} (env : nat → choice) (w : world) (p : prog R) : list event :=
  (run env 0 w p).1.1.

Definition world_after {R} (env : nat → choice) (w : world) (p : prog R) : world :=
  (run env 0 w p).1.2.

(** ** The handlers of server.js *)

Section Handlers.
Variable h : host.

(** The template literal of the /generate-plan handler: the four
    substitutions are converted with ToString, left to right, and spliced
    between the literal parts. *)
Definition prompt_head : string :=
  "
            Using the following meal plan as a template:
            --- TEMPLATE START ---
            ".

Definition prompt_after_template : string :=
  "
            --- TEMPLATE END ---

            Create a new one-week meal plan for a single person with the following changes:
            1. Cookbook: ".

Definition prompt_after_cookbook : string :=
  "
            2. Dietary Needs: ".

Definition prompt_after_dietaryNeeds : string :=
  "
            3. Special Requests: ".

Definition prompt_tail : string :=
  "

            Respond ONLY with the complete, updated markdown for the new meal plan file. Do not include any other text or explanation.
        ".

Definition prompt_text (template cookbook dietaryNeeds specialRequests : string) : string :=
  prompt_head +:+ template +:+
  prompt_after_template +:+ cookbook +:+
  prompt_after_cookbook +:+ dietaryNeeds +:+
  prompt_after_dietaryNeeds +:+ specialRequests +:+
  prompt_tail.

Definition build_prompt (template cookbook dietaryNeeds specialRequests : value)
  : result string :=
  rbind (ToString h template) (λ t,
  rbind (ToString h cookbook) (λ c,
  rbind (ToString h dietaryNeeds) (λ d,
  rbind (ToString h specialRequests) (λ s,
  Ok (prompt_text t c d s))))).

(** The prompt the handler builds from a request body. *)
Definition prompt_of (body : object) : result string :=
  build_prompt (prop "template" body) (prop "cookbook" body)
               (prop "dietaryNeeds" body) (prop "specialRequests" body).

Definition failure (message : string) : object :=
  [("success", VBool false); ("message", VStr message)].

(** 1. [app.post('/generate-plan', ...)] *)
Definition generate_plan (body : object) : prog unit :=
  try_catch
    (let cookbook := prop "cookbook" body in
     let dietaryNeeds := prop "dietaryNeeds" body in
     let specialRequests := prop "specialRequests" body in
     let template := prop "template" body in
     prompt ← lift (build_prompt template cookbook dietaryNeeds specialRequests);
     result ← perform (GenerateContent prompt);
     text ← lift (response_text result);
     res_json [("success", VBool true); ("mealPlan", VStr text)])
    (λ error,
       console_error "Error generating plan:" error;;
       res_status_json 500 (failure "Failed to generate meal plan.")).

(** 2. [app.post('/favorites', ...)] *)
Definition save_favorite (body : object) : prog unit :=
  try_catch
    (let mealPlanMarkdown := prop "mealPlanMarkdown" body in
     if negb (truthy mealPlanMarkdown) then
       res_status_json 400 (failure "No meal plan content provided.")
     else
       createdAt ← perform NewDate;
       id ← perform (AddDoc "favorites"
                       [("createdAt", VDate createdAt);
                        ("content", mealPlanMarkdown)]);
       res_json [("success", VBool true); ("id", VStr id)])
    (λ error,
       console_error "Error saving favorite:" error;;
       res_status_json 500 (failure "Failed to save favorite.")).

(** [obj[key] = v]: overwrite in place, or append a new property. *)
Fixpoint obj_set (key : string) (v : value) (o : object) : object :=
  match o with
  | [] => [(key, v)]
  | (k, x) :: rest =>
      if String.eqb k key then (k, v) :: rest else (k, x) :: obj_set key v rest
  end.

(** [{ ...target, ...source }] *)
Definition spread (target source : object) : object :=
  fold_left (λ acc kv, obj_set kv.1 kv.2 acc) source target.

(** [doc => ({ id: doc.id, ...doc.data() })] *)
Definition doc_entry (doc : string * object) : value :=
  VObj (spread [("id", VStr doc.1)] doc.2).

(** 3. [app.get('/favorites', ...)] *)
Definition list_favorites : prog unit :=
  try_catch
    (docs ← perform (GetDocs "favorites");
     let favoritesList := map doc_entry docs in
     res_json [("success", VBool true); ("favorites", VArr favoritesList)])
    (λ error,
       console_error "Error fetching favorites:" error;;
       res_status_json 500 (failure "Failed to fetch favorites.")).

(** 4. [app.post('/upload-cookbook', upload.single('cookbookFile'), ...)] *)
Definition upload_cookbook (file : option File) : prog unit :=
  try_catch
    (match file with
     | None => res_status_json 400 (failure "No file uploaded.")
     | Some file =>
         now ← perform DateNow;
         let storageRef :=
           ref ("cookbooks/" +:+ Z_toString now +:+ "_" +:+ originalname file) in
         perform (UploadBytes (fullPath storageRef) (buffer file) (mimetype file));;
         uploadedAt ← perform NewDate;
         perform (AddDoc "cookbooks"
                    [("name", VStr (originalname file));
                     ("storagePath", VStr (fullPath storageRef));
                     ("uploadedAt", VDate uploadedAt)]);;
         res_json [("success", VBool true);
                   ("message", VStr "Cookbook uploaded successfully.")]
     end)
    (λ error,
       console_error "Error uploading cookbook:" error;;
       res_status_json 500 (failure "Failed to upload cookbook.")).

(** 5. [app.get('/cookbooks', ...)] *)
Definition list_cookbooks : prog unit :=
  try_catch
    (docs ← perform (GetDocs "cookbooks");
     let list := map doc_entry docs in
     res_json [("success", VBool true); ("cookbooks", VArr list)])
    (λ error,
       console_error "Error fetching cookbooks:" error;;
       res_status_json 500 (failure "Failed to fetch cookbooks.")).

(** A request as the front door hands it to a handler: [req.body], taken
    to be the object [express.json()] parses from a JSON body, or
    [req.file], which multer leaves undefined when the request carries no
    file.  A request that the front door refuses (a JSON body the parser
    rejects, a file that [upload.single] rejects, see [post_upload_cookbook])
    is answered by Express and reaches no handler: it is not a request in
    this sense. *)
Inductive request : Type :=
  | PostGeneratePlan (body : object)
  | PostFavorites (body : object)
  | GetFavorites
  | PostUploadCookbook (file : option File)
  | GetCookbooks.

Definition handle (r : request) : prog unit :=
  match r with
  | PostGeneratePlan body => generate_plan body
  | PostFavorites body => save_favorite body
  | GetFavorites => list_favorites
  | PostUploadCookbook file => upload_cookbook file
  | GetCookbooks => list_cookbooks
  end.


(** ** Requests in flight

    Several requests may be in flight at once: a handler gives up control at
    each call it makes, and another handler may run in between.  The server
    is the world together with the handlers that have started; a step either
    starts the handler of an arriving request or lets one handler in flight
    make its next call. *)
Record server : Type := {
  outside : world;
  in_flight : list (prog unit)
}.

Definition boot : server := {| outside := empty_world; in_flight := [] |}.

Inductive server_step : server → server → Prop :=
  | step_arrive (s : server) (r : request) :
      server_step s {| outside := outside s;
                       in_flight := in_flight s ++ [handle r] |}
  | step_call (s : server) (i : nat) (X : Type) (c : call X)
              (k : result X → prog unit) (ch : choice) :
      in_flight s !! i = Some (Call c k) →
      server_step s {| outside := (answer ch (outside s) c).2;
                       in_flight := <[i := k (answer ch (outside s) c).1]>
                                      (in_flight s) |}.

Definition reachable (s : server) : Prop := rtc server_step boot s.

(** Serving requests one after the other, each with its own environment. *)
Fixpoint serve (w : world) (rs : list (request * (nat → choice)))
  : list (list event) * world :=
  match rs with
  | [] => ([], w)
  | (r, env) :: rest =>
      let '(t, w1, _) := run env 0 w (handle r) in
      let '(ts, w2) := serve w1 rest in
      (t :: ts, w2)
  end.

End Handlers.

(** ** Reading traces *)

(** [s] occurs in [t]. *)
Definition Substring (s t : string) : Prop :=
  ∃ before after, t = before +:+ s +:+ after.

(** The responses sent during an execution. *)
Definition responses (t : list event) : list (Z * object) :=
  omap (λ e, match e with ERespond status body => Some (status, body) | _ => None end) t.

(** The documents an execution tried to write into a collection. *)
Definition doc_writes (coll : string) (t : list event) : list (object * result string) :=
  omap (λ e, match e with
             | EAddDoc c data r => if String.eqb c coll then Some (data, r) else None
             | _ => None
             end) t.

(** The blobs an execution tried to write: path and outcome. *)
Definition blob_writes (t : list event) : list (string * result unit) :=
  omap (λ e, match e with EUploadBytes path _ _ r => Some (path, r) | _ => None end) t.

(** A call to one of the three external services: generation, document
    store, blob store. *)
Definition service_call (e : event) : bool :=
  match e with
  | EGenerateContent _ _ | EAddDoc _ _ _ | EGetDocs _ _ | EUploadBytes _ _ _ _ => true
  | _ => false
  end.

(** The error with which a service call failed, if it did.  For the
    generation service this covers both the request and the extraction of
    the text from what it returned. *)
Definition failure_of (e : event) : option error :=
  match e with
  | EGenerateContent _ (Thrown err) => Some err
  | EGenerateContent _ (Ok g) =>
      match response_text g with Thrown err => Some err | Ok _ => None end
  | EAddDoc _ _ (Thrown err) => Some err
  | EGetDocs _ (Thrown err) => Some err
  | EUploadBytes _ _ _ (Thrown err) => Some err
  | _ => None
  end.

(** No service call of the execution failed. *)
Definition undisturbed (t : list event) : Prop :=
  Forall (λ e, failure_of e = None) t.

(** The message of the 500 response of each endpoint. *)
Definition generic_message (r : request) : string :=
  match r with
  | PostGeneratePlan _ => "Failed to generate meal plan."
  | PostFavorites _ => "Failed to save favorite."
  | GetFavorites => "Failed to fetch favorites."
  | PostUploadCookbook _ => "Failed to upload cookbook."
  | GetCookbooks => "Failed to fetch cookbooks."
  end.

Definition catch_label (r : request) : string :=
  match r with
  | PostGeneratePlan _ => "Error generating plan:"
  | PostFavorites _ => "Error saving favorite:"
  | GetFavorites => "Error fetching favorites:"
  | PostUploadCookbook _ => "Error uploading cookbook:"
  | GetCookbooks => "Error fetching cookbooks:"
  end.

(** The storage key of an upload: [`cookbooks/${Date.now()}_${file.originalname}`]. *)
Definition storage_key (t : Z) (name : string) : string :=
  "cookbooks/" +:+ Z_toString t +:+ "_" +:+ name.

(** Every cookbook record points at a blob that is in the bucket. *)
Definition records_have_blobs (w : world) : Prop :=
  ∀ id data, docs w "cookbooks" !! id = Some data →
    ∃ path, obj_get "storagePath" data = Some (VStr path) ∧
            is_Some (bucket w !! path).

(** The paths a call is known to have written once its outcome is in. *)
Definition written {X} (c : call X) (a : result X) : gset string :=
  match c, a with
  | UploadBytes path _ _, Ok _ => {[path]}
  | _, _ => ∅
  end.

(** A write of a cookbook record is allowed when the record points at one
    of [paths]. *)
Definition may_record {X} (paths : gset string) (c : call X) : Prop :=
  match c with
  | AddDoc coll data =>
      coll = "cookbooks" →
      ∃ path, obj_get "storagePath" data = Some (VStr path) ∧ path ∈ paths
  | _ => True
  end.

(** A handler in flight only records, in the cookbooks collection, paths
    from [paths] or paths it has itself written successfully before. *)
Fixpoint records_own_uploads (paths : gset string) (p : prog unit) : Prop :=
  match p with
  | Ret _ | Throw _ => True
  | Call c k =>
      may_record paths c ∧
      ∀ a, records_own_uploads (paths ∪ written c a) (k a)
  end.

(** The invariant of the server: records point at blobs, and every handler
    in flight will keep it that way. *)
Definition server_ok (s : server) : Prop :=
  records_have_blobs (outside s) ∧
  ∀ p, p ∈ in_flight s →
    ∃ paths : gset string,
      (∀ path, path ∈ paths → is_Some (bucket (outside s) !! path)) ∧
      records_own_uploads paths p.

(** ** Named pieces of the executions *)

(** The record and the blob an upload writes, and the document a save
    writes. *)
Definition upload_data (f : File) (t uploadedAt : Z) : object :=
  [("name", VStr (originalname f));
   ("storagePath", VStr (storage_key t (originalname f)));
   ("uploadedAt", VDate uploadedAt)].

Definition upload_blob (f : File) : blob :=
  {| blob_bytes := buffer f; blob_contentType := mimetype f |}.

Definition favorite_data (createdAt : Z) (content : value) : object :=
  [("createdAt", VDate createdAt); ("content", content)].

(** The answer of a save that went through, with the id it returned. *)
Definition saved_as (t : list event) (id : string) : Prop :=
  responses t = [(200, [("success", VBool true); ("id", VStr id)])].

(** The id under which a listed entry is returned. *)
Definition entry_id (entry : value) : value :=
  match entry with
  | VObj o => prop "id" o
  | _ => VUndefined
  end.

(** The document a save creates, and the entry under which it is listed. *)
Definition saved_doc (id : string) (save : object * (nat → choice)) : string * object :=
  (id, favorite_data (clock (save.2 0%nat)) (prop "mealPlanMarkdown" save.1)).

Definition saved_entry (id : string) (save : object * (nat → choice)) : value :=
  VObj [("id", VStr id);
        ("createdAt", VDate (clock (save.2 0%nat)));
        ("content", prop "mealPlanMarkdown" save.1)].

Definition as_request (save : object * (nat → choice)) : request * (nat → choice) :=
  (PostFavorites save.1, save.2).

(** ** Steps as functions *)

(** The two steps of the server, computed. *)
Definition arrive (h : host) (r : request) (s : server) : server :=
  {| outside := outside s; in_flight := in_flight s ++ [handle h r] |}.

Definition advance (ch : choice) (i : nat) (s : server) : server :=
  match in_flight s !! i with
  | Some (Call c k) =>
      {| outside := (answer ch (outside s) c).2;
         in_flight := <[i := k (answer ch (outside s) c).1]> (in_flight s) |}
  | _ => s
  end.

(** ** Sample data *)

(** An environment given by its first choices and the choice it repeats
    afterwards. *)
Definition script (first : list choice) (then_ : choice) : nat → choice :=
  λ n, default then_ (first !! n).

Definition sample_host : host :=
  {| Number_toString := λ _, "NaN"; Date_toString := λ _, "Invalid Date" |}.

Definition calm : choice :=
  {| fault := None;
     clock := 1700000000000;
     new_id := "kP3vX0aQ";
     produced := {| response_text := Ok "# Week 1" |} |}.

Definition failing : choice :=
  {| fault := Some (ServiceError "unavailable");
     clock := 1700000000000;
     new_id := "kP3vX0aQ";
     produced := {| response_text := Ok "# Week 1" |} |}.

(** The same environment, with another id coming from the store. *)
Definition calm_again : choice :=
  {| fault := None;
     clock := 1700000000500;
     new_id := "Zq81LmTt";
     produced := {| response_text := Ok "# Week 1" |} |}.

Definition plan_a : object := [("mealPlanMarkdown", VStr "# Plan A")].

Definition plan_b : object := [("mealPlanMarkdown", VStr "# Plan B")].

Definition two_saves : list (object * (nat → choice)) :=
  [(plan_a, λ _, calm); (plan_b, λ _, calm_again)].

Definition cookbook_pdf : File :=
  {| originalname := "soups.pdf";
     mimetype := "application/pdf";
     buffer := [Byte.x25; Byte.x50; Byte.x44; Byte.x46] |}.

(** The server after a save has arrived and made its first call, and an
    upload that arrived after it has made all of its calls but the last:
    the blob and its record are written, the save is still in flight. *)
Definition mid_upload : server :=
  advance calm 1 (advance calm 1 (advance calm 1 (advance calm 1
    (arrive sample_host (PostUploadCookbook (Some cookbook_pdf))
       (advance calm 0 (arrive sample_host (PostFavorites plan_a) boot)))))).

Definition full_request : object :=
  [("cookbook", VStr "Salt Fat Acid Heat");
   ("dietaryNeeds", VStr "vegetarian");
   ("specialRequests", VStr "no mushrooms");
   ("template", VStr "# Week")].

Definition cookbook_only : object := [("cookbook", VStr "Salt Fat Acid Heat")].

Definition unprintable_cookbook : object := [("cookbook", VObj [("toString", VNull)])].

Definition zero_plan : object := [("mealPlanMarkdown", VNum (Finite false 0 0))].

(** ** The front door of the upload route *)

(** The errors with which multer refuses a file. *)
Inductive MulterError : Type :=
  | LIMIT_UNEXPECTED_FILE (field : string)
  | LIMIT_FILE_SIZE (field : string).

(** [limits: { fileSize: 100 * 1024 * 1024 }] *)
Definition fileSize : Z := 100 * 1024 * 1024.

(** [upload.single(name)] on the files of a multipart body, each with the
    field it came under, in the order they arrive (none when the body is
    not multipart).  One file under [name], within the size limit, becomes
    [req.file]; no file at all leaves [req.file] undefined; a file under
    another field, a file over the limit and any further file are refused
    with an error. *)
Definition upload_single (name : string) (parts : list (string * File))
  : MulterError + option File :=
  match parts with
  | [] => inr None
  | (field, file) :: rest =>
      if negb (String.eqb field name) then inl (LIMIT_UNEXPECTED_FILE field)
      else if fileSize <? Z.of_nat (length (buffer file)) then
        inl (LIMIT_FILE_SIZE field)
      else
        match rest with
        | [] => inr (Some file)
        | (field', _) :: _ => inl (LIMIT_UNEXPECTED_FILE field')
        end
  end.

(** What becomes of a request at the front door: it is handed to the
    handler, or it is refused.  [server.js] registers no error-handling
    middleware, so an error passed on by multer is answered by Express
    itself, with the status of the error or else 500 and with an HTML page
    instead of the JSON envelope; the handler does not run. *)
Inductive routed : Type :=
  | Handled (p : prog unit)
  | Refused (status : Z) (err : MulterError).

(** [app.post('/upload-cookbook', upload.single('cookbookFile'), ...)] *)
Definition post_upload_cookbook (parts : list (string * File)) : routed :=
  match upload_single "cookbookFile" parts with
  | inr file => Handled (upload_cookbook file)
  | inl err => Refused 500 err
  end.

(** ** Further notions *)

(** A value whose conversion to a string goes through: anything but an
    object with an own toString property, at the top or as a (nested)
    element of an array. *)
Fixpoint printable (v : value) : bool :=
  match v with
  | VArr items =>
      forallb (λ x, match x with
                    | VUndefined | VNull => true
                    | _ => printable x
                    end) items
  | VObj props =>
      match obj_get "toString" props with
      | Some _ => false
      | None => true
      end
  | _ => true
  end.

(** The four fields the /generate-plan handler reads. *)
Definition plan_fields : list string :=
  ["template"; "cookbook"; "dietaryNeeds"; "specialRequests"].

(** The names of the own properties of an object. *)
Definition keys (o : object) : list string := map fst o.

(** A property of a listed entry. *)
Definition entry_prop (key : string) (entry : value) : option value :=
  match entry with
  | VObj o => obj_get key o
  | _ => None
  end.

(** Whether a character occurs in a string. *)
Fixpoint occurs (c : Ascii.ascii) (s : string) : bool :=
  match s with
  | EmptyString => false
  | String x rest => Ascii.eqb x c || occurs c rest
  end.

(** The answer of an upload that went through. *)
Definition uploaded (t : list event) : Prop :=
  responses t = [(200, [("success", VBool true);
                        ("message", VStr "Cookbook uploaded successfully.")])].

(** The record an upload creates, and the entry under which it is listed. *)
Definition uploaded_doc (id : string) (up : File * (nat → choice)) : string * object :=
  (id, upload_data up.1 (clock (up.2 0%nat)) (clock (up.2 2%nat))).

Definition uploaded_entry (id : string) (up : File * (nat → choice)) : value :=
  VObj [("id", VStr id);
        ("name", VStr (originalname up.1));
        ("storagePath", VStr (storage_key (clock (up.2 0%nat)) (originalname up.1)));
        ("uploadedAt", VDate (clock (up.2 2%nat)))].

Definition as_upload (up : File * (nat → choice)) : request * (nat → choice) :=
  (PostUploadCookbook (Some up.1), up.2).

(** The most calls to the external services one request can cause: an
    upload writes a blob and a record, every other request makes one
    call. *)
Definition max_service_calls (r : request) : nat :=
  match r with
  | PostUploadCookbook _ => 2
  | _ => 1
  end.

(** * Properties *)

(** ** Every execution of each handler, spelled out *)

Lemma docs_put_blob w path b coll : docs (put_blob path b w) coll = docs w coll.
Proof. reflexivity. Qed.

Lemma run_generate_plan h env w body :
  run env 0 w (generate_plan h body) =
  match prompt_of h body with
  | Thrown e =>
      ([EConsoleError "Error generating plan:" e;
        ERespond 500 (failure "Failed to generate meal plan.")], w, Ok ())
  | Ok p =>
      match fault (env 0%nat) with
      | Some e =>
          ([EGenerateContent p (Thrown e);
            EConsoleError "Error generating plan:" e;
            ERespond 500 (failure "Failed to generate meal plan.")], w, Ok ())
      | None =>
          match response_text (produced (env 0%nat)) with
          | Thrown e =>
              ([EGenerateContent p (Ok (produced (env 0%nat)));
                EConsoleError "Error generating plan:" e;
                ERespond 500 (failure "Failed to generate meal plan.")], w, Ok ())
          | Ok text =>
              ([EGenerateContent p (Ok (produced (env 0%nat)));
                ERespond 200 [("success", VBool true); ("mealPlan", VStr text)]],
               w, Ok ())
          end
      end
  end.
Proof.
  unfold generate_plan, prompt_of.
  destruct (build_prompt _ _ _ _ _) as [p|e]; cbn; [|done].
  destruct (fault (env 0%nat)); cbn; [done|].
  destruct (response_text _); done.
Qed.

Lemma run_save_favorite env w body :
  run env 0 w (save_favorite body) =
  let v := prop "mealPlanMarkdown" body in
  if truthy v then
    let data := favorite_data (clock (env 0%nat)) v in
    match fault (env 1%nat) with
    | Some e =>
        ([ENewDate (Ok (clock (env 0%nat)));
          EAddDoc "favorites" data (Thrown e);
          EConsoleError "Error saving favorite:" e;
          ERespond 500 (failure "Failed to save favorite.")], w, Ok ())
    | None =>
        match docs w "favorites" !! new_id (env 1%nat) with
        | Some _ =>
            ([ENewDate (Ok (clock (env 0%nat)));
              EAddDoc "favorites" data (Thrown (ServiceError "already-exists"));
              EConsoleError "Error saving favorite:" (ServiceError "already-exists");
              ERespond 500 (failure "Failed to save favorite.")], w, Ok ())
        | None =>
            ([ENewDate (Ok (clock (env 0%nat)));
              EAddDoc "favorites" data (Ok (new_id (env 1%nat)));
              ERespond 200 [("success", VBool true);
                            ("id", VStr (new_id (env 1%nat)))]],
             put_doc "favorites" (new_id (env 1%nat)) data w, Ok ())
        end
    end
  else
    ([ERespond 400 (failure "No meal plan content provided.")], w, Ok ()).
Proof.
  unfold save_favorite; cbn zeta.
  destruct (truthy _); cbn; [|done].
  destruct (fault (env 1%nat)); cbn; [done|].
  destruct (docs w "favorites" !! _); done.
Qed.

Lemma run_list env w coll label message field :
  run env 0 w
    (try_catch
       (docs ← perform (GetDocs coll);
        res_json [("success", VBool true); (field, VArr (map doc_entry docs))])
       (λ error, console_error label error;;
                 res_status_json 500 (failure message))) =
  match fault (env 0%nat) with
  | Some e =>
      ([EGetDocs coll (Thrown e); EConsoleError label e;
        ERespond 500 (failure message)], w, Ok ())
  | None =>
      ([EGetDocs coll (Ok (map_to_list (docs w coll)));
        ERespond 200 [("success", VBool true);
                      (field, VArr (map doc_entry (map_to_list (docs w coll))))]],
       w, Ok ())
  end.
Proof. cbn. destruct (fault (env 0%nat)); done. Qed.

Lemma run_upload_cookbook_none env w :
  run env 0 w (upload_cookbook None) =
  ([ERespond 400 (failure "No file uploaded.")], w, Ok ()).
Proof. done. Qed.

Lemma run_upload_cookbook_some env w f :
  run env 0 w (upload_cookbook (Some f)) =
  let t := clock (env 0%nat) in
  let key := storage_key t (originalname f) in
  match fault (env 1%nat) with
  | Some e =>
      ([EDateNow (Ok t);
        EUploadBytes key (buffer f) (mimetype f) (Thrown e);
        EConsoleError "Error uploading cookbook:" e;
        ERespond 500 (failure "Failed to upload cookbook.")], w, Ok ())
  | None =>
      let w1 := put_blob key (upload_blob f) w in
      let data := upload_data f t (clock (env 2%nat)) in
      match fault (env 3%nat) with
      | Some e =>
          ([EDateNow (Ok t);
            EUploadBytes key (buffer f) (mimetype f) (Ok ());
            ENewDate (Ok (clock (env 2%nat)));
            EAddDoc "cookbooks" data (Thrown e);
            EConsoleError "Error uploading cookbook:" e;
            ERespond 500 (failure "Failed to upload cookbook.")], w1, Ok ())
      | None =>
          match docs w "cookbooks" !! new_id (env 3%nat) with
          | Some _ =>
              ([EDateNow (Ok t);
                EUploadBytes key (buffer f) (mimetype f) (Ok ());
                ENewDate (Ok (clock (env 2%nat)));
                EAddDoc "cookbooks" data (Thrown (ServiceError "already-exists"));
                EConsoleError "Error uploading cookbook:"
                              (ServiceError "already-exists");
                ERespond 500 (failure "Failed to upload cookbook.")], w1, Ok ())
          | None =>
              ([EDateNow (Ok t);
                EUploadBytes key (buffer f) (mimetype f) (Ok ());
                ENewDate (Ok (clock (env 2%nat)));
                EAddDoc "cookbooks" data (Ok (new_id (env 3%nat)));
                ERespond 200 [("success", VBool true);
                              ("message", VStr "Cookbook uploaded successfully.")]],
               put_doc "cookbooks" (new_id (env 3%nat)) data w1, Ok ())
          end
      end
  end.
Proof.
  unfold upload_cookbook; cbn.
  destruct (fault (env 1%nat)); cbn; [done|].
  destruct (fault (env 3%nat)); cbn; [done|].
  rewrite docs_put_blob.
  destruct (docs w "cookbooks" !! _); done.
Qed.

(** ** Strings *)

Lemma append_assoc (a b c : string) : (a +:+ b) +:+ c = a +:+ b +:+ c.
Proof.
  induction a as [|x a IH]; [done|].
  change (String x ((a +:+ b) +:+ c) = String x (a +:+ b +:+ c)).
  by rewrite IH.
Qed.

Lemma Substring_here (s after : string) : Substring s (s +:+ after).
Proof. by exists "", after. Qed.

Lemma Substring_later (a s t : string) : Substring s t → Substring s (a +:+ t).
Proof.
  intros (before & after & ->). exists (a +:+ before), after.
  by rewrite append_assoc.
Qed.

Create HintDb substring.
#[local] Hint Resolve Substring_here Substring_later : substring.

(** A property that is missing reads as [undefined], and [undefined] is
    spliced into a template literal as the nine letters of its name. *)
Lemma ToString_absent h key body :
  obj_get key body = None → ToString h (prop key body) = Ok "undefined".
Proof. unfold prop. by intros ->. Qed.

Lemma ToString_string h key body s :
  obj_get key body = Some (VStr s) → ToString h (prop key body) = Ok s.
Proof. unfold prop. by intros ->. Qed.

Lemma prompt_of_converted h body t c d s :
  ToString h (prop "template" body) = Ok t →
  ToString h (prop "cookbook" body) = Ok c →
  ToString h (prop "dietaryNeeds" body) = Ok d →
  ToString h (prop "specialRequests" body) = Ok s →
  prompt_of h body = Ok (prompt_text t c d s).
Proof.
  intros Ht Hc Hd Hs. unfold prompt_of, build_prompt.
  by rewrite Ht, Hc, Hd, Hs.
Qed.

Lemma generate_plan_calls_service h env w body p :
  prompt_of h body = Ok p →
  ∃ r rest, trace_of env w (generate_plan h body) = EGenerateContent p r :: rest.
Proof.
  intros Hp. unfold trace_of. rewrite run_generate_plan, Hp.
  destruct (fault (env 0%nat)); [by eexists _, _|].
  destruct (response_text _); by eexists _, _.
Qed.

(** ** The generation handler *)

(** C1. When the four fields of the body are strings, the prompt handed to
    the generation service is the template literal with the four strings
    spliced in unchanged; in particular the template and the three
    user-supplied fields each occur in it verbatim. *)
Theorem generate_plan_prompt_verbatim h env w body
    (template cookbook dietaryNeeds specialRequests : string) :
  obj_get "template" body = Some (VStr template) →
  obj_get "cookbook" body = Some (VStr cookbook) →
  obj_get "dietaryNeeds" body = Some (VStr dietaryNeeds) →
  obj_get "specialRequests" body = Some (VStr specialRequests) →
  let prompt := prompt_text template cookbook dietaryNeeds specialRequests in
  prompt_of h body = Ok prompt ∧
  (∃ r rest,
     trace_of env w (generate_plan h body) = EGenerateContent prompt r :: rest) ∧
  Substring template prompt ∧
  Substring cookbook prompt ∧
  Substring dietaryNeeds prompt ∧
  Substring specialRequests prompt.
Proof.
  intros Ht Hc Hd Hs prompt.
  assert (prompt_of h body = Ok prompt) as Hp
    by (apply prompt_of_converted; by apply ToString_string).
  split; [done|]. split; [by apply generate_plan_calls_service|].
  unfold prompt, prompt_text. repeat split; eauto 12 with substring.
Qed.

(** C9, as amended.  The handler validates nothing: whenever the four
    substitutions convert to strings (as every absent field and every string
    does), the first thing it does is to call the generation service with
    the prompt built from them, and the slot of each absent field holds the
    literal text undefined. *)
Theorem generate_plan_absent_fields h env w body (t c d s : string) :
  ToString h (prop "template" body) = Ok t →
  ToString h (prop "cookbook" body) = Ok c →
  ToString h (prop "dietaryNeeds" body) = Ok d →
  ToString h (prop "specialRequests" body) = Ok s →
  (∃ r rest,
     trace_of env w (generate_plan h body)
     = EGenerateContent (prompt_text t c d s) r :: rest) ∧
  (obj_get "template" body = None → t = "undefined") ∧
  (obj_get "cookbook" body = None → c = "undefined") ∧
  (obj_get "dietaryNeeds" body = None → d = "undefined") ∧
  (obj_get "specialRequests" body = None → s = "undefined").
Proof.
  intros Ht Hc Hd Hs. split.
  { apply generate_plan_calls_service. by apply prompt_of_converted. }
  repeat split; intros Habs;
    apply (ToString_absent h) in Habs; congruence.
Qed.

(** ** The favorites handlers *)

Lemma truthy_nonempty_string s : s ≠ "" → truthy (VStr s) = true.
Proof. intros Hs. cbn. by apply negb_true_iff, String.eqb_neq. Qed.

Lemma falsy_values v :
  truthy v = false ↔
  v = VUndefined ∨ v = VNull ∨ v = VBool false ∨ v = VNum NaN ∨
  (∃ neg e, v = VNum (Finite neg 0 e)) ∨ v = VStr "".
Proof.
  split.
  - destruct v as [| |[]|[|neg|neg m e]|s| | |]; cbn; try discriminate; eauto 8.
    + intros Hm%negb_false_iff%N.eqb_eq. subst. eauto 10.
    + intros Hs%negb_false_iff%String.eqb_eq. subst. eauto 10.
  - intros [->|[->|[->|[->|[(neg & e & ->)| ->]]]]]; done.
Qed.

Lemma save_favorite_falsy env w body :
  truthy (prop "mealPlanMarkdown" body) = false →
  run env 0 w (save_favorite body) =
  ([ERespond 400 (failure "No meal plan content provided.")], w, Ok ()).
Proof. intros Hv. rewrite run_save_favorite. cbn zeta. by rewrite Hv. Qed.

(** C3. A body without mealPlanMarkdown, or with the empty string there, is
    answered with status 400 and the failure envelope, and nothing else
    happens: no document is written and the world is unchanged. *)
Theorem save_favorite_rejects_missing_or_empty env w body :
  obj_get "mealPlanMarkdown" body = None ∨
  obj_get "mealPlanMarkdown" body = Some (VStr "") →
  trace_of env w (save_favorite body)
  = [ERespond 400 (failure "No meal plan content provided.")] ∧
  doc_writes "favorites" (trace_of env w (save_favorite body)) = [] ∧
  world_after env w (save_favorite body) = w.
Proof.
  intros Hbody. unfold trace_of, world_after.
  rewrite save_favorite_falsy; [done|].
  unfold prop. by destruct Hbody as [-> | ->].
Qed.

(** C10. The check is on truthiness: every falsy mealPlanMarkdown (a missing
    property, null, false, either zero, NaN, the empty string) gets the 400
    answer with no write, and every truthy one goes on to the store. *)
Theorem save_favorite_truthiness env w body :
  let v := prop "mealPlanMarkdown" body in
  let t := trace_of env w (save_favorite body) in
  (truthy v = false →
     t = [ERespond 400 (failure "No meal plan content provided.")] ∧
     doc_writes "favorites" t = [] ∧
     world_after env w (save_favorite body) = w) ∧
  (truthy v = true →
     ∃ d r rest, t = ENewDate (Ok d) :: EAddDoc "favorites" (favorite_data d v) r :: rest) ∧
  (truthy v = false ↔
     v = VUndefined ∨ v = VNull ∨ v = VBool false ∨ v = VNum NaN ∨
     (∃ neg e, v = VNum (Finite neg 0 e)) ∨ v = VStr "").
Proof.
  intros v t. split; [|split; [|apply falsy_values]].
  - intros Hv. subst t. unfold trace_of, world_after.
    by rewrite save_favorite_falsy.
  - intros Hv. subst t. unfold trace_of. rewrite run_save_favorite.
    cbn zeta. fold v. rewrite Hv.
    destruct (fault (env 1%nat)); [by eexists _, _, _|].
    destruct (docs w "favorites" !! _); by eexists _, _, _.
Qed.

(** C8, as amended.  For a non-empty string the handler makes exactly one
    write to the favorites collection, of a document holding the string
    unchanged under content and the current date under createdAt.  When no
    service call fails, that write creates one new document under a fresh
    id, nothing else in the world changes, and the answer is success with
    that id.  When the write fails, the error is logged, the answer is the
    500 envelope, and the world is as it was: no document is created. *)
Theorem save_favorite_writes_one_document env w body (s : string) :
  obj_get "mealPlanMarkdown" body = Some (VStr s) →
  s ≠ "" →
  let t := trace_of env w (save_favorite body) in
  (∃ d r, doc_writes "favorites" t = [(favorite_data d (VStr s), r)]) ∧
  (undisturbed t →
     ∃ d id,
       t = [ENewDate (Ok d);
            EAddDoc "favorites" (favorite_data d (VStr s)) (Ok id);
            ERespond 200 [("success", VBool true); ("id", VStr id)]] ∧
       docs w "favorites" !! id = None ∧
       world_after env w (save_favorite body)
       = put_doc "favorites" id (favorite_data d (VStr s)) w) ∧
  (¬ undisturbed t →
     ∃ d err,
       t = [ENewDate (Ok d);
            EAddDoc "favorites" (favorite_data d (VStr s)) (Thrown err);
            EConsoleError "Error saving favorite:" err;
            ERespond 500 (failure "Failed to save favorite.")] ∧
       world_after env w (save_favorite body) = w).
Proof.
  intros Hbody Hs t. subst t. unfold trace_of, world_after.
  rewrite run_save_favorite. unfold prop. rewrite Hbody. cbn zeta.
  rewrite (truthy_nonempty_string s Hs).
  destruct (fault (env 1%nat)) as [e|] eqn:Hf.
  { split; [by eexists _, _|]. split; [|by intros _; eexists _, _].
    intros Hu. by apply Forall_cons_1 in Hu as [_ [? _]%Forall_cons_1]. }
  destruct (docs w "favorites" !! new_id (env 1%nat)) eqn:Hid.
  { split; [by eexists _, _|]. split; [|by intros _; eexists _, _].
    intros Hu. by apply Forall_cons_1 in Hu as [_ [? _]%Forall_cons_1]. }
  split; [by eexists _, _|]. split; [intros _; by eexists _, _|].
  intros Hnot. destruct Hnot. by repeat constructor.
Qed.

(** ** The upload handler *)

(** With [req.file] undefined the answer is 400 with the failure envelope;
    no blob and no record is written and the world is unchanged. *)
Lemma upload_cookbook_rejects_missing_file env w :
  trace_of env w (upload_cookbook None)
  = [ERespond 400 (failure "No file uploaded.")] ∧
  blob_writes (trace_of env w (upload_cookbook None)) = [] ∧
  doc_writes "cookbooks" (trace_of env w (upload_cookbook None)) = [] ∧
  world_after env w (upload_cookbook None) = w.
Proof. done. Qed.

(** C6, as amended.  Take a request to /upload-cookbook with no file under
    cookbookFile.  If it carries no file at all, it reaches the handler with
    [req.file] undefined, and the handler answers 400 with the failure
    envelope and writes neither a blob nor a record.  If it carries a file
    under another field, [upload.single] refuses it as an unexpected field:
    the handler does not run, so nothing is written either, and the answer
    is Express's 500, not the 400 envelope. *)
Theorem upload_without_cookbook_file env w (parts : list (string * File)) :
  (∀ file, ("cookbookFile", file) ∉ parts) →
  (parts = [] →
     post_upload_cookbook parts = Handled (upload_cookbook None) ∧
     trace_of env w (upload_cookbook None)
     = [ERespond 400 (failure "No file uploaded.")] ∧
     blob_writes (trace_of env w (upload_cookbook None)) = [] ∧
     doc_writes "cookbooks" (trace_of env w (upload_cookbook None)) = [] ∧
     world_after env w (upload_cookbook None) = w) ∧
  (parts ≠ [] →
     ∃ field,
       field ≠ "cookbookFile" ∧
       post_upload_cookbook parts = Refused 500 (LIMIT_UNEXPECTED_FILE field)).
Proof.
  intros Hnone. split.
  - by intros ->.
  - destruct parts as [|[field file] rest]; [done|]. intros _.
    exists field. assert (field ≠ "cookbookFile") as Hne.
    { intros ->. apply (Hnone file). left. }
    split; [done|]. unfold post_upload_cookbook, upload_single.
    by destruct (String.eqb_spec field "cookbookFile").
Qed.

(** C4. An upload that is answered with success has written exactly one
    blob, at cookbooks/<t>_<n> for the time [t] read from the clock and the
    original name [n], and exactly one record, whose storagePath is that key
    and whose name is [n]; the world has changed by that blob and that
    record only. *)
Theorem upload_cookbook_success env w f :
  let t := trace_of env w (upload_cookbook (Some f)) in
  (∃ body, (200, body) ∈ responses t) →
  ∃ now uploadedAt id,
    let key := storage_key now (originalname f) in
    let data := upload_data f now uploadedAt in
    t = [EDateNow (Ok now);
         EUploadBytes key (buffer f) (mimetype f) (Ok ());
         ENewDate (Ok uploadedAt);
         EAddDoc "cookbooks" data (Ok id);
         ERespond 200 [("success", VBool true);
                       ("message", VStr "Cookbook uploaded successfully.")]] ∧
    blob_writes t = [(key, Ok ())] ∧
    doc_writes "cookbooks" t = [(data, Ok id)] ∧
    obj_get "storagePath" data = Some (VStr key) ∧
    obj_get "name" data = Some (VStr (originalname f)) ∧
    docs w "cookbooks" !! id = None ∧
    world_after env w (upload_cookbook (Some f))
    = put_doc "cookbooks" id data (put_blob key (upload_blob f) w).
Proof.
  intros t. subst t. unfold trace_of, world_after.
  rewrite run_upload_cookbook_some. cbn zeta.
  destruct (fault (env 1%nat)).
  { intros [body [=]%list_elem_of_singleton]. }
  destruct (fault (env 3%nat)).
  { intros [body [=]%list_elem_of_singleton]. }
  destruct (docs w "cookbooks" !! new_id (env 3%nat)) eqn:Hid.
  { intros [body [=]%list_elem_of_singleton]. }
  intros _. by eexists _, _, _.
Qed.

(** ** Failures of the external services *)

Ltac pick_event H :=
  repeat (apply elem_of_cons in H as [-> | H]);
  [.. | by apply elem_of_nil in H].

Ltac use_text :=
  repeat match goal with
         | Hg : response_text ?g = _ |- context [response_text ?g] => rewrite Hg
         end.

Ltac failed_call Hsome :=
  let err := fresh "err" in
  destruct Hsome as [err Hsome]; cbn in Hsome;
  revert Hsome; use_text; intros Hsome;
  try discriminate;
  injection Hsome as ->;
  first [ exists [], err; cbn; use_text; by repeat first [split | constructor]
        | eexists [_], err; cbn; use_text; by repeat first [split | constructor]
        | eexists [_; _; _], err; cbn; use_text;
          by repeat first [split | constructor] ].

(** C5. In any execution of any of the five handlers in which a call to the
    generation service, the document store or the blob store fails, the
    failed call is followed by exactly two things: the error is logged and
    the answer 500 is sent, with the failure envelope and the fixed message
    of the endpoint.  No service call fails before it and none is made after
    it, so nothing is retried, and no other answer is sent. *)
Theorem handlers_answer_500_on_service_failure h r env w e :
  let t := trace_of env w (handle h r) in
  e ∈ t →
  is_Some (failure_of e) →
  ∃ (before : list event) err,
    failure_of e = Some err ∧
    t = (before ++ [e; EConsoleError (catch_label r) err;
                    ERespond 500 (failure (generic_message r))])%list ∧
    Forall (λ x, failure_of x = None) before ∧
    responses t = [(500, failure (generic_message r))].
Proof.
  intros t. subst t. unfold trace_of.
  destruct r as [body|body| |[f|]|]; cbn [handle catch_label generic_message].
  - rewrite run_generate_plan.
    destruct (prompt_of h body) as [p|e0]; cbn.
    + destruct (fault (env 0%nat)); cbn.
      * intros He Hsome. pick_event He; failed_call Hsome.
      * destruct (response_text (produced (env 0%nat))) eqn:Htext; cbn;
          intros He Hsome; pick_event He; failed_call Hsome.
    + intros He Hsome. pick_event He; failed_call Hsome.
  - rewrite run_save_favorite. cbn zeta.
    destruct (truthy _); cbn.
    + destruct (fault (env 1%nat)); cbn.
      * intros He Hsome. pick_event He; failed_call Hsome.
      * destruct (docs w "favorites" !! _); cbn;
          intros He Hsome; pick_event He; failed_call Hsome.
    + intros He Hsome. pick_event He; failed_call Hsome.
  - unfold list_favorites. rewrite run_list.
    destruct (fault (env 0%nat)); cbn;
      intros He Hsome; pick_event He; failed_call Hsome.
  - rewrite run_upload_cookbook_some. cbn zeta.
    destruct (fault (env 1%nat)); cbn.
    + intros He Hsome. pick_event He; failed_call Hsome.
    + destruct (fault (env 3%nat)); cbn.
      * intros He Hsome. pick_event He; failed_call Hsome.
      * destruct (docs w "cookbooks" !! _); cbn;
          intros He Hsome; pick_event He; failed_call Hsome.
  - rewrite run_upload_cookbook_none. cbn.
    intros He Hsome. pick_event He; failed_call Hsome.
  - unfold list_cookbooks. rewrite run_list.
    destruct (fault (env 0%nat)); cbn;
      intros He Hsome; pick_event He; failed_call Hsome.
Qed.

(** ** Blob first, record second *)

Ltac safe_handler :=
  repeat first
    [ done
    | progress cbn
    | split
    | intros [?|?]
    | by intros [=]
    | by (intros _; eexists; split; [reflexivity | set_solver])
    | match goal with
      | |- context [lift ?x] => destruct x
      | |- context [match ?x with _ => _ end] => destruct x
      end ].

Lemma handle_records_own_uploads h r : records_own_uploads ∅ (handle h r).
Proof.
  destruct r as [body|body| |[f|]|]; cbn [handle].
  - unfold generate_plan. cbn zeta.
    destruct (build_prompt _ _ _ _ _); safe_handler.
  - unfold save_favorite. cbn zeta. destruct (truthy _); safe_handler.
  - safe_handler.
  - safe_handler.
  - safe_handler.
  - safe_handler.
Qed.

Lemma docs_put_doc_ne coll coll' id data w :
  coll ≠ coll' → docs (put_doc coll id data w) coll' = docs w coll'.
Proof. intros Hne. unfold docs, put_doc; cbn. by rewrite lookup_insert_ne. Qed.

Lemma docs_put_doc coll id data w :
  docs (put_doc coll id data w) coll = <[id := data]> (docs w coll).
Proof. unfold docs at 1, put_doc; cbn. by rewrite lookup_insert_eq. Qed.

(** What one call can do to the world: the bucket only grows, the paths
    the call reports as written are in the bucket afterwards, and a record
    that points at an existing blob keeps the records consistent. *)
Lemma answer_keeps_records {X} ch w (c : call X) (paths : gset string) :
  records_have_blobs w →
  (∀ path, path ∈ paths → is_Some (bucket w !! path)) →
  may_record paths c →
  records_have_blobs (answer ch w c).2 ∧
  (∀ path, is_Some (bucket w !! path) → is_Some (bucket (answer ch w c).2 !! path)) ∧
  (∀ path, path ∈ written c (answer ch w c).1 →
           is_Some (bucket (answer ch w c).2 !! path)).
Proof.
  intros Hw Hpaths Hc.
  destruct c as [p| | |coll data|coll|path bytes ct|label e|status body]; cbn;
    try (destruct (fault ch); cbn);
    try (by split; [|split; [|intros ? ?%not_elem_of_empty]]).
  - destruct (docs w coll !! new_id ch) eqn:Hid; cbn;
      [by split; [|split; [|intros ? ?%not_elem_of_empty]]|].
    split; [|by split; [|intros ? ?%not_elem_of_empty]].
    intros id data'. destruct (decide (coll = "cookbooks")) as [->|Hne].
    + rewrite docs_put_doc. intros [[<- <-]|[_ Hold]]%lookup_insert_Some.
      * destruct (Hc eq_refl) as (path & Hget & Hin). eauto.
      * by apply Hw in Hold.
    + rewrite docs_put_doc_ne by done. apply Hw.
  - split; [|split].
    + intros id data Hdoc. destruct (Hw id data Hdoc) as (p & Hget & Hb).
      exists p. split; [done|]. cbn.
      destruct (decide (path = p)) as [->|Hne];
        [by rewrite lookup_insert_eq | by rewrite lookup_insert_ne].
    + intros p Hb. destruct (decide (path = p)) as [->|Hne];
        [by rewrite lookup_insert_eq | by rewrite lookup_insert_ne].
    + intros p ->%elem_of_singleton. by rewrite lookup_insert_eq.
Qed.

Lemma elem_of_insert_inv {A} (l : list A) (i : nat) (x y : A) :
  y ∈ <[i := x]> l → y = x ∨ y ∈ l.
Proof.
  intros [j Hj]%list_elem_of_lookup.
  apply list_lookup_insert_Some in Hj as [(_ & -> & _)|[_ Hj]]; [by left|].
  right. by eapply list_elem_of_lookup_2.
Qed.

Lemma server_step_ok h s s' : server_ok s → server_step h s s' → server_ok s'.
Proof.
  intros [Hrec Hfl] Hstep. destruct Hstep as [s r|s i X c k ch Hi].
  - split; [done|]. cbn. intros p [Hp|Hp%list_elem_of_singleton]%elem_of_app.
    + by apply Hfl.
    + subst p. exists ∅. split; [by intros ? ?%not_elem_of_empty|].
      apply handle_records_own_uploads.
  - destruct (Hfl (Call c k)) as (paths & Hpaths & Hc & Hk).
    { eapply list_elem_of_lookup_2, Hi. }
    destruct (answer_keeps_records ch (outside s) c paths) as (Hrec' & Hmono & Hwr);
      [done..|].
    split; [done|]. cbn. intros p Hp.
    apply elem_of_insert_inv in Hp as [->|Hp].
    + exists (paths ∪ written c (answer ch (outside s) c).1). split; [|apply Hk].
      intros path [Hin|Hin]%elem_of_union; [apply Hmono, Hpaths, Hin|by apply Hwr].
    + destruct (Hfl p Hp) as (paths' & Hpaths' & Hsafe).
      exists paths'. split; [|done]. intros path Hin. by apply Hmono, Hpaths'.
Qed.

Lemma reachable_server_ok h s : reachable h s → server_ok s.
Proof.
  intros Hreach. eapply (rtc_ind_r server_ok boot); [| |exact Hreach].
  - split; [|by intros p Hp%elem_of_nil]. intros id data Hdoc. by cbn in Hdoc.
  - intros s1 s2 _ Hstep IH. by eapply server_step_ok.
Qed.

Lemma serve_cons h w r env rest :
  serve h w ((r, env) :: rest) =
  ((run env 0 w (handle h r)).1.1 :: (serve h (run env 0 w (handle h r)).1.2 rest).1,
   (serve h (run env 0 w (handle h r)).1.2 rest).2).
Proof.
  cbn. destruct (run env 0 w (handle h r)) as [[t w1] res]. cbn.
  by destruct (serve h w1 rest).
Qed.

(** Running a handler to completion is one way of interleaving: the calls
    of [run] are steps of the server. *)
Lemma run_call {R} env n w X (c : call X) (k : result X → prog R) :
  (run env n w (Call c k)).1.2
  = (run env (S n) (answer (env n) w c).2 (k (answer (env n) w c).1)).1.2.
Proof.
  cbn. destruct (answer (env n) w c) as [a w1]. cbn.
  by destruct (run env (S n) w1 (k a)) as [[t w2] r].
Qed.

Lemma run_steps h env (p : prog unit) : ∀ n w ps qs,
  ∃ p', rtc (server_step h)
          {| outside := w; in_flight := ps ++ p :: qs |}
          {| outside := (run env n w p).1.2; in_flight := ps ++ p' :: qs |}.
Proof.
  induction p as [r|e|X c k IH]; intros n w ps qs.
  - exists (Ret r). apply rtc_refl.
  - exists (Throw e). apply rtc_refl.
  - destruct (IH (answer (env n) w c).1 (S n) (answer (env n) w c).2 ps qs)
      as [p' Hsteps].
    exists p'. rewrite run_call. eapply rtc_l; [|exact Hsteps].
    pose proof (step_call h {| outside := w; in_flight := ps ++ Call c k :: qs |}
                  (length ps) X c k (env n)) as Hstep.
    cbn in Hstep.
    rewrite <-(Nat.add_0_r (length ps)), insert_app_r, Nat.add_0_r in Hstep.
    apply Hstep. by apply list_lookup_middle.
Qed.

Lemma serve_reachable h rs : ∀ s,
  reachable h s →
  ∃ ps, reachable h {| outside := (serve h (outside s) rs).2; in_flight := ps |}.
Proof.
  induction rs as [|[r env] rs IH]; intros [w ps] Hs.
  - by exists ps.
  - rewrite serve_cons. cbn [fst snd outside].
    destruct (run_steps h env (handle h r) 0 w ps []) as [p' Hrun].
    apply (IH {| outside := (run env 0 w (handle h r)).1.2;
                 in_flight := ps ++ [p'] |}).
    eapply rtc_trans; [|exact Hrun].
    eapply rtc_r; [exact Hs|].
    exact (step_arrive h {| outside := w; in_flight := ps |} r).
Qed.

Ltac find_event H :=
  repeat (apply elem_of_cons in H as [H|H]; [try discriminate H|]);
  try (by apply elem_of_nil in H).

Ltac at_index i H :=
  repeat (destruct i as [|i]; cbn in H; try discriminate H).

(** C2. In every execution of the upload handler a write of a cookbook
    record comes after a successful write of the blob its storagePath names;
    when the blob write fails no record is written; when the record write
    fails after the blob was written, the blob stays in the bucket and no
    record is added for it.  Consequently, in every state the server can
    reach, with any number of requests in flight and their calls
    interleaved in any order, every cookbook record names a blob that is in
    the bucket; in particular after any sequence of requests served one
    after the other. *)
Theorem upload_writes_blob_before_record h :
  (∀ env w file,
     let t := trace_of env w (upload_cookbook file) in
     let w' := world_after env w (upload_cookbook file) in
     (∀ i data r,
        t !! i = Some (EAddDoc "cookbooks" data r) →
        ∃ j path bytes contentType,
          (j < i)%nat ∧
          t !! j = Some (EUploadBytes path bytes contentType (Ok ())) ∧
          obj_get "storagePath" data = Some (VStr path)) ∧
     (∀ path bytes contentType err,
        EUploadBytes path bytes contentType (Thrown err) ∈ t →
        doc_writes "cookbooks" t = [] ∧ w' = w) ∧
     (∀ data err,
        EAddDoc "cookbooks" data (Thrown err) ∈ t →
        ∃ path b,
          obj_get "storagePath" data = Some (VStr path) ∧
          w' = put_blob path b w)) ∧
  (∀ s, reachable h s → records_have_blobs (outside s)) ∧
  (∀ rs, records_have_blobs (serve h empty_world rs).2).
Proof.
  split; [|split].
  2: { by intros s [Hrec _]%reachable_server_ok. }
  2: { intros rs. destruct (serve_reachable h rs boot) as [ps Hreach]; [apply rtc_refl|].
       by apply reachable_server_ok in Hreach as [Hrec _]. }
  intros env w [f|]; cbn zeta; unfold trace_of, world_after.
  - rewrite run_upload_cookbook_some. cbn zeta.
    destruct (fault (env 1%nat)); cbn; [|destruct (fault (env 3%nat)); cbn;
      [|destruct (docs w "cookbooks" !! _); cbn]].
    all: split; [|split].
    all: try (intros i data r Hi; by at_index i Hi).
    all: try (intros i data r Hi; at_index i Hi; simplify_eq;
              eexists 1%nat, _, _, _; split; [lia|split; reflexivity]).
    all: try (intros path bytes ct err Hin; by find_event Hin).
    all: try (intros data err Hin; find_event Hin; simplify_eq;
              by eexists _, _).
  - rewrite run_upload_cookbook_none. cbn. split; [|split].
    + intros i data r Hi. at_index i Hi.
    + intros path bytes ct err Hin. find_event Hin.
    + intros data err Hin. find_event Hin.
Qed.

(** ** Saving, then listing *)

(** A save that answered with an id has created the document under that
    id, and the id was free. *)
Lemma saved_as_inv env w body id :
  saved_as (run env 0 w (save_favorite body)).1.1 id →
  docs w "favorites" !! id = None ∧
  (run env 0 w (save_favorite body)).1.2
  = put_doc "favorites" id
      (favorite_data (clock (env 0%nat)) (prop "mealPlanMarkdown" body)) w.
Proof.
  unfold saved_as. rewrite run_save_favorite. cbn zeta.
  destruct (truthy _); [|discriminate].
  destruct (fault (env 1%nat)); [discriminate|].
  destruct (docs w "favorites" !! new_id (env 1%nat)) eqn:Hid; [discriminate|].
  cbn. by intros [= <-].
Qed.

Lemma serve_saves h saves : ∀ w ids,
  Forall2 saved_as (serve h w (map as_request saves)).1 ids →
  map_to_list (docs (serve h w (map as_request saves)).2 "favorites")
  ≡ₚ zip_with saved_doc ids saves ++ map_to_list (docs w "favorites") ∧
  NoDup ids ∧
  (∀ id, id ∈ ids → docs w "favorites" !! id = None).
Proof.
  induction saves as [|[body env] saves IH]; intros w ids.
  - cbn. intros ->%Forall2_nil_inv_l. split; [done|]. split; [constructor|].
    by intros id ?%elem_of_nil.
  - change (map as_request ((body, env) :: saves))
      with ((PostFavorites body, env) :: map as_request saves).
    rewrite serve_cons. cbn [fst snd handle].
    intros (id & ids' & Hsaved & Hrest & ->)%Forall2_cons_inv_l.
    apply saved_as_inv in Hsaved as [Hfree Hw1]. rewrite Hw1 in *.
    destruct (IH _ _ Hrest) as (Hperm & Hnodup & Hfresh).
    rewrite docs_put_doc in Hperm, Hfresh.
    split; [|split].
    + rewrite Hperm, map_to_list_insert by done. cbn.
      by rewrite Permutation_middle.
    + constructor; [|done]. intros Hin%Hfresh. by rewrite lookup_insert_eq in Hin.
    + intros id' [->|Hin%Hfresh]%elem_of_cons; [done|].
      by apply lookup_insert_None in Hin as [? _].
Qed.

Lemma doc_entry_saved_doc id save : doc_entry (saved_doc id save) = saved_entry id save.
Proof. reflexivity. Qed.

Lemma map_zip_with {A B C D} (f : C → D) (g : A → B → C) (l : list A) (k : list B) :
  map f (zip_with g l k) = zip_with (λ a b, f (g a b)) l k.
Proof.
  revert k. induction l as [|a l IH]; intros [|b k]; cbn; [done..|]. by rewrite IH.
Qed.

Lemma serve_length h rs : ∀ w, length (serve h w rs).1 = length rs.
Proof.
  induction rs as [|[r env] rs IH]; intros w; [done|].
  rewrite serve_cons. cbn. by rewrite IH.
Qed.

Lemma entry_ids_of_saved ids : ∀ saves : list (object * (nat → choice)),
  length ids = length saves →
  map entry_id (zip_with saved_entry ids saves) = map VStr ids.
Proof.
  induction ids as [|id ids IH]; intros [|save saves] Hlen; try done.
  cbn. rewrite IH; [done|]. by injection Hlen.
Qed.

(** C7, as amended.  Start from a world whose favorites collection is
    empty, serve any number of saves one after the other, and suppose each
    was answered with success and an id.  Then the ids are pairwise
    distinct.  A listing that follows, if its read of the store does not
    fail, answers with success and with exactly the documents of the
    collection: one entry per save, carrying the id that save returned, its
    date and its content, in some order.  If the read fails, the error is
    logged and the answer is the 500 envelope, with no collection in it. *)
Theorem favorites_listing_after_saves h w
    (saves : list (object * (nat → choice))) (ids : list string) envG :
  docs w "favorites" = ∅ →
  let after := serve h w (map as_request saves) in
  Forall2 saved_as after.1 ids →
  let t := trace_of envG after.2 list_favorites in
  NoDup ids ∧
  (undisturbed t →
     ∃ entries,
       responses t = [(200, [("success", VBool true); ("favorites", VArr entries)])] ∧
       entries = map doc_entry (map_to_list (docs after.2 "favorites")) ∧
       entries ≡ₚ zip_with saved_entry ids saves ∧
       map entry_id entries ≡ₚ map VStr ids ∧
       length entries = length saves) ∧
  (¬ undisturbed t →
     ∃ err,
       t = [EGetDocs "favorites" (Thrown err);
            EConsoleError "Error fetching favorites:" err;
            ERespond 500 (failure "Failed to fetch favorites.")] ∧
       responses t = [(500, failure "Failed to fetch favorites.")]).
Proof.
  intros Hempty after Hsaved t.
  assert (length ids = length saves) as Hlen.
  { apply Forall2_length in Hsaved. unfold after in Hsaved.
    by rewrite serve_length, length_map in Hsaved. }
  destruct (serve_saves h saves w ids Hsaved) as (Hperm & Hnodup & _).
  rewrite Hempty, map_to_list_empty, app_nil_r in Hperm. fold after in Hperm.
  assert (map doc_entry (map_to_list (docs after.2 "favorites"))
          ≡ₚ zip_with saved_entry ids saves) as Hentries.
  { rewrite (Permutation_map doc_entry Hperm), map_zip_with.
    by erewrite zip_with_ext by (intros; apply doc_entry_saved_doc || reflexivity). }
  split; [done|].
  subst t. unfold trace_of, list_favorites in *. rewrite run_list in *.
  destruct (fault (envG 0%nat)).
  { split; [|by intros _; eexists].
    intros Hund. by apply Forall_cons_1 in Hund as [? _]. }
  split; [|intros Hnot; destruct Hnot; by repeat constructor].
  intros _. eexists. split; [reflexivity|]. split; [reflexivity|]. split; [done|].
  split; [by rewrite (Permutation_map entry_id Hentries), entry_ids_of_saved|].
  by rewrite (Permutation_length Hentries), length_zip_with, Hlen, Nat.min_id.
Qed.

(** ** Concrete executions *)

Lemma arrive_reachable h r s : reachable h s → reachable h (arrive h r s).
Proof. intros Hs. eapply rtc_r; [exact Hs|apply step_arrive]. Defined.

Lemma advance_reachable h ch i s : reachable h s → reachable h (advance ch i s).
Proof.
  intros Hs. unfold advance.
  destruct (in_flight s !! i) as [[r|e|X c k]|] eqn:Hi; try exact Hs.
  eapply rtc_r; [exact Hs|]. by apply step_call.
Defined.

Lemma generate_plan_prompt_verbatim_witness :
  obj_get "template" full_request = Some (VStr "# Week") ∧
  Substring "no mushrooms"
    (prompt_text "# Week" "Salt Fat Acid Heat" "vegetarian" "no mushrooms").
Proof.
  split; [reflexivity|].
  apply (generate_plan_prompt_verbatim sample_host (λ _, calm) empty_world
           full_request "# Week" "Salt Fat Acid Heat" "vegetarian" "no mushrooms");
    reflexivity.
Defined.

Lemma upload_writes_blob_before_record_witness :
  reachable sample_host mid_upload ∧ records_have_blobs (outside mid_upload).
Proof.
  assert (reachable sample_host mid_upload) as Hreach.
  { do 4 apply advance_reachable. apply arrive_reachable.
    apply advance_reachable, arrive_reachable, rtc_refl. }
  split; [exact Hreach|].
  apply (proj1 (proj2 (upload_writes_blob_before_record sample_host))), Hreach.
Defined.

Lemma save_favorite_rejects_missing_or_empty_witness :
  obj_get "mealPlanMarkdown" [] = None ∧
  trace_of (λ _, calm) empty_world (save_favorite [])
  = [ERespond 400 (failure "No meal plan content provided.")].
Proof.
  split; [reflexivity|].
  apply (save_favorite_rejects_missing_or_empty (λ _, calm) empty_world []).
  left. reflexivity.
Defined.

Lemma upload_without_cookbook_file_witness :
  (∀ file, ("cookbookFile", file) ∉ ([] : list (string * File))) ∧
  post_upload_cookbook [] = Handled (upload_cookbook None) ∧
  trace_of (λ _, calm) empty_world (upload_cookbook None)
  = [ERespond 400 (failure "No file uploaded.")].
Proof.
  assert (∀ file, ("cookbookFile", file) ∉ ([] : list (string * File))) as Hnone.
  { intros file Hin. inversion Hin. }
  split; [exact Hnone|].
  destruct (proj1 (upload_without_cookbook_file (λ _, calm) empty_world [] Hnone)
              eq_refl) as (Hroute & Htrace & _).
  split; [exact Hroute|exact Htrace].
Defined.

Lemma upload_cookbook_success_witness :
  (200, [("success", VBool true); ("message", VStr "Cookbook uploaded successfully.")])
  ∈ responses (trace_of (λ _, calm) empty_world (upload_cookbook (Some cookbook_pdf))) ∧
  ∃ now uploadedAt id,
    blob_writes (trace_of (λ _, calm) empty_world (upload_cookbook (Some cookbook_pdf)))
    = [(storage_key now "soups.pdf", Ok ())] ∧
    doc_writes "cookbooks"
      (trace_of (λ _, calm) empty_world (upload_cookbook (Some cookbook_pdf)))
    = [(upload_data cookbook_pdf now uploadedAt, Ok id)].
Proof.
  assert ((200, [("success", VBool true);
                 ("message", VStr "Cookbook uploaded successfully.")])
          ∈ responses (trace_of (λ _, calm) empty_world
                         (upload_cookbook (Some cookbook_pdf)))) as Hok.
  { vm_compute. left. }
  split; [exact Hok|].
  destruct (upload_cookbook_success (λ _, calm) empty_world cookbook_pdf)
    as (now & uploadedAt & id & _ & Hblob & Hdoc & _).
  { eexists. exact Hok. }
  exists now, uploadedAt, id. split; [exact Hblob|exact Hdoc].
Defined.

Lemma handlers_answer_500_on_service_failure_witness :
  EGetDocs "favorites" (Thrown (ServiceError "unavailable"))
  ∈ trace_of (λ _, failing) empty_world (handle sample_host GetFavorites) ∧
  responses (trace_of (λ _, failing) empty_world (handle sample_host GetFavorites))
  = [(500, failure "Failed to fetch favorites.")].
Proof.
  assert (EGetDocs "favorites" (Thrown (ServiceError "unavailable"))
          ∈ trace_of (λ _, failing) empty_world (handle sample_host GetFavorites))
    as Hin by (vm_compute; left).
  split; [exact Hin|].
  destruct (handlers_answer_500_on_service_failure sample_host GetFavorites
              (λ _, failing) empty_world _ Hin) as (before & err & _ & _ & _ & Hres).
  { eexists. reflexivity. }
  exact Hres.
Defined.

Lemma favorites_listing_after_saves_witness :
  Forall2 saved_as
    (serve sample_host empty_world (map as_request two_saves)).1
    ["kP3vX0aQ"; "Zq81LmTt"] ∧
  undisturbed
    (trace_of (λ _, calm)
       (serve sample_host empty_world (map as_request two_saves)).2 list_favorites) ∧
  ∃ entries,
    responses
      (trace_of (λ _, calm)
         (serve sample_host empty_world (map as_request two_saves)).2
         list_favorites)
    = [(200, [("success", VBool true); ("favorites", VArr entries)])] ∧
    entries ≡ₚ zip_with saved_entry ["kP3vX0aQ"; "Zq81LmTt"] two_saves.
Proof.
  assert (Forall2 saved_as
            (serve sample_host empty_world (map as_request two_saves)).1
            ["kP3vX0aQ"; "Zq81LmTt"]) as Hsaved.
  { repeat constructor. }
  assert (undisturbed
            (trace_of (λ _, calm)
               (serve sample_host empty_world (map as_request two_saves)).2
               list_favorites)) as Hund.
  { vm_compute. repeat constructor. }
  split; [exact Hsaved|]. split; [exact Hund|].
  destruct (favorites_listing_after_saves sample_host empty_world
              two_saves ["kP3vX0aQ"; "Zq81LmTt"] (λ _, calm) eq_refl Hsaved)
    as (_ & Hok & _).
  destruct (Hok Hund) as (entries & Hres & _ & Hperm & _).
  exists entries. split; [exact Hres|exact Hperm].
Defined.

Lemma save_favorite_writes_one_document_witness :
  obj_get "mealPlanMarkdown" plan_a = Some (VStr "# Plan A") ∧
  "# Plan A" ≠ "" ∧
  ∃ d r,
    doc_writes "favorites" (trace_of (λ _, calm) empty_world (save_favorite plan_a))
    = [(favorite_data d (VStr "# Plan A"), r)].
Proof.
  split; [reflexivity|]. split; [discriminate|].
  apply (save_favorite_writes_one_document (λ _, calm) empty_world plan_a "# Plan A");
    [reflexivity|discriminate].
Defined.

Lemma generate_plan_absent_fields_witness :
  ToString sample_host (prop "template" cookbook_only) = Ok "undefined" ∧
  ∃ r rest,
    trace_of (λ _, calm) empty_world (generate_plan sample_host cookbook_only)
    = EGenerateContent
        (prompt_text "undefined" "Salt Fat Acid Heat" "undefined" "undefined") r
      :: rest.
Proof.
  split; [reflexivity|].
  apply (generate_plan_absent_fields sample_host (λ _, calm) empty_world cookbook_only
           "undefined" "Salt Fat Acid Heat" "undefined" "undefined");
    reflexivity.
Defined.

Lemma save_favorite_truthiness_witness :
  truthy (prop "mealPlanMarkdown" zero_plan) = false ∧
  trace_of (λ _, calm) empty_world (save_favorite zero_plan)
  = [ERespond 400 (failure "No meal plan content provided.")].
Proof.
  split; [reflexivity|].
  apply (proj1 (save_favorite_truthiness (λ _, calm) empty_world zero_plan)).
  reflexivity.
Defined.

(** ** Where the claims as first stated fail *)

(** C6 as first stated.  The request carries no file under cookbookFile,
    only one under another field: multer refuses it, the handler is not
    run, and what the client gets is Express's 500, not the 400
    envelope. *)
Lemma upload_under_another_field :
  (∀ file, ("cookbookFile", file) ∉ [("file", cookbook_pdf)]) ∧
  post_upload_cookbook [("file", cookbook_pdf)]
  = Refused 500 (LIMIT_UNEXPECTED_FILE "file") ∧
  (∀ p, post_upload_cookbook [("file", cookbook_pdf)] ≠ Handled p).
Proof.
  split; [|split; [reflexivity|discriminate]].
  intros file Hin. apply list_elem_of_singleton in Hin. discriminate Hin.
Qed.

(** C7 as first stated.  One save succeeds; the listing that follows fails
    to read the store, and answers 500 with no collection at all. *)
Lemma favorites_listing_read_failure :
  docs empty_world "favorites" = ∅ ∧
  Forall2 saved_as
    (serve sample_host empty_world (map as_request [(plan_a, λ _, calm)])).1
    ["kP3vX0aQ"] ∧
  responses
    (trace_of (λ _, failing)
       (serve sample_host empty_world (map as_request [(plan_a, λ _, calm)])).2
       list_favorites)
  = [(500, failure "Failed to fetch favorites.")].
Proof. split; [reflexivity|]. split; [repeat constructor|reflexivity]. Qed.

(** C8 as first stated.  The string is not empty, but the store rejects the
    write: the answer is 500, not success with an id, and no document
    exists afterwards. *)
Lemma save_favorite_store_failure :
  obj_get "mealPlanMarkdown" plan_a = Some (VStr "# Plan A") ∧
  "# Plan A" ≠ "" ∧
  trace_of (script [calm; failing] calm) empty_world (save_favorite plan_a)
  = [ENewDate (Ok 1700000000000);
     EAddDoc "favorites" (favorite_data 1700000000000 (VStr "# Plan A"))
             (Thrown (ServiceError "unavailable"));
     EConsoleError "Error saving favorite:" (ServiceError "unavailable");
     ERespond 500 (failure "Failed to save favorite.")] ∧
  world_after (script [calm; failing] calm) empty_world (save_favorite plan_a)
  = empty_world.
Proof. split; [reflexivity|]. split; [discriminate|]. split; reflexivity. Qed.

(** C9 as first stated.  Three of the four fields are absent, and the
    fourth is an object with an own toString property: building the prompt
    throws, the generation service is never called, and the answer is
    500. *)
Lemma generate_plan_unprintable_field :
  obj_get "template" unprintable_cookbook = None ∧
  obj_get "dietaryNeeds" unprintable_cookbook = None ∧
  obj_get "specialRequests" unprintable_cookbook = None ∧
  trace_of (λ _, calm) empty_world (generate_plan sample_host unprintable_cookbook)
  = [EConsoleError "Error generating plan:"
       (TypeError "Cannot convert object to primitive value");
     ERespond 500 (failure "Failed to generate meal plan.")] ∧
  Forall (λ e, service_call e = false)
    (trace_of (λ _, calm) empty_world
       (generate_plan sample_host unprintable_cookbook)).
Proof. repeat split; repeat constructor. Qed.

(** * Further properties of the handlers *)

(** ** Answers *)

(** All the executions of a handler, one goal each. *)
Ltac executions h r env w :=
  destruct r as [?body|?body| |[?f|]|]; cbn [handle catch_label generic_message];
  [ rewrite run_generate_plan; destruct (prompt_of h _);
    [destruct (fault (env 0%nat));
     [|destruct (response_text (produced (env 0%nat))) eqn:?]|]
  | rewrite run_save_favorite; cbn zeta; destruct (truthy _) eqn:?;
    [destruct (fault (env 1%nat));
     [|destruct (docs w "favorites" !! new_id (env 1%nat)) eqn:?]|]
  | unfold list_favorites; rewrite run_list; destruct (fault (env 0%nat))
  | rewrite run_upload_cookbook_some; cbn zeta; destruct (fault (env 1%nat));
    [|destruct (fault (env 3%nat));
      [|destruct (docs w "cookbooks" !! new_id (env 3%nat)) eqn:?]]
  | rewrite run_upload_cookbook_none
  | unfold list_cookbooks; rewrite run_list; destruct (fault (env 0%nat)) ].

(** X1. Whatever request is handed to a handler and whatever the services
    do, the handler runs to its end without letting an exception escape,
    and it sends exactly one answer, as the last thing it does, with status
    200, 400 or 500. *)
Theorem every_request_answered_once h r env w :
  (run env 0 w (handle h r)).2 = Ok () ∧
  ∃ (before : list event) status body,
    trace_of env w (handle h r) = (before ++ [ERespond status body])%list ∧
    responses before = [] ∧
    (status = 200 ∨ status = 400 ∨ status = 500).
Proof.
  unfold trace_of. executions h r env w; (split; [reflexivity|]); cbn [fst snd].
  all: first
    [ by (exists []; eexists _, _; split; [reflexivity|]; split; [reflexivity|]; eauto)
    | by (eexists [_], _, _; split; [reflexivity|]; split; [reflexivity|]; eauto)
    | by (eexists [_; _], _, _; split; [reflexivity|]; split; [reflexivity|]; eauto)
    | by (eexists [_; _; _], _, _; split; [reflexivity|]; split; [reflexivity|]; eauto)
    | by (eexists [_; _; _; _], _, _; split; [reflexivity|]; split; [reflexivity|]; eauto)
    | by (eexists [_; _; _; _; _], _, _; split; [reflexivity|]; split; [reflexivity|];
          eauto) ].
Qed.

Ltac the_answer H :=
  cbn in H; apply list_elem_of_singleton in H; injection H as -> ->.

(** X2. What the status of the answer of a handler tells the client.
    200: no service call of the execution failed.  400: the handler did
    nothing but answer, and the world is as it was.  500: the body is the
    failure envelope with the fixed message of the endpoint, and the last
    thing the handler did before answering was to log the error under the
    label of the endpoint. *)
Theorem answer_status_meaning h r env w status body :
  let t := trace_of env w (handle h r) in
  (status, body) ∈ responses t →
  (status = 200 → undisturbed t) ∧
  (status = 400 →
     t = [ERespond 400 body] ∧ world_after env w (handle h r) = w) ∧
  (status = 500 →
     body = failure (generic_message r) ∧
     ∃ (before : list event) err,
       t = (before ++ [EConsoleError (catch_label r) err;
                       ERespond 500 body])%list ∧
       responses before = []).
Proof.
  unfold trace_of, world_after. cbn zeta.
  executions h r env w; cbn [fst snd]; intros Hin; the_answer Hin.
  all: split; [|split]; intros Hs; try discriminate Hs; clear Hs.
  all: try (by split).
  all: try (unfold undisturbed; repeat constructor; cbn; use_text; done).
  all: split; [reflexivity|].
  all: first [ by exists []; eexists
             | by eexists [_], _
             | by eexists [_; _], _
             | by eexists [_; _; _], _
             | by eexists [_; _; _; _], _ ].
Qed.

Lemma answer_status_meaning_witness :
  (200, [("success", VBool true); ("id", VStr "kP3vX0aQ")])
  ∈ responses (trace_of (λ _, calm) empty_world
                 (handle sample_host (PostFavorites plan_a))) ∧
  undisturbed (trace_of (λ _, calm) empty_world
                 (handle sample_host (PostFavorites plan_a))).
Proof.
  assert ((200, [("success", VBool true); ("id", VStr "kP3vX0aQ")])
          ∈ responses (trace_of (λ _, calm) empty_world
                         (handle sample_host (PostFavorites plan_a)))) as Hin
    by (vm_compute; left).
  split; [exact Hin|].
  apply (answer_status_meaning sample_host (PostFavorites plan_a) (λ _, calm)
           empty_world _ _ Hin).
  reflexivity.
Defined.

(** ** What a handler touches *)

(** X3. Generating a plan and the two listings never change anything in
    the document store or in the bucket, whatever the services answer. *)
Theorem reads_change_nothing h env w body :
  world_after env w (generate_plan h body) = w ∧
  world_after env w list_favorites = w ∧
  world_after env w list_cookbooks = w.
Proof.
  unfold world_after. split; [|split].
  - rewrite run_generate_plan. destruct (prompt_of h body); [|done].
    destruct (fault (env 0%nat)); [done|]. by destruct (response_text _).
  - unfold list_favorites. rewrite run_list. by destruct (fault (env 0%nat)).
  - unfold list_cookbooks. rewrite run_list. by destruct (fault (env 0%nat)).
Qed.

(** X4. A save touches the favorites collection only: the bucket and every
    other collection stay as they are.  If it is answered with success
    under an id, that id was free and the collection has gained exactly the
    document holding the submitted value and the date; if it is not
    answered with success, nothing at all has changed. *)
Theorem save_favorite_changes_favorites_only env w body :
  let t := trace_of env w (save_favorite body) in
  let w' := world_after env w (save_favorite body) in
  bucket w' = bucket w ∧
  (∀ coll, coll ≠ "favorites" → docs w' coll = docs w coll) ∧
  (∀ id, saved_as t id →
     docs w "favorites" !! id = None ∧
     docs w' "favorites"
     = <[id := favorite_data (clock (env 0%nat)) (prop "mealPlanMarkdown" body)]>
         (docs w "favorites")) ∧
  ((∀ id, ¬ saved_as t id) → w' = w).
Proof.
  unfold trace_of, world_after, saved_as. cbn zeta.
  rewrite run_save_favorite. cbn zeta.
  destruct (truthy _); [|by repeat split].
  destruct (fault (env 1%nat)); [by repeat split|].
  destruct (docs w "favorites" !! new_id (env 1%nat)) eqn:Hid; [by repeat split|].
  cbn [fst snd]. split; [done|]. split; [|split].
  - intros coll Hne. by apply docs_put_doc_ne.
  - intros id [= <-]. split; [done|]. apply docs_put_doc.
  - intros Hnot. by destruct (Hnot (new_id (env 1%nat))).
Qed.

Lemma save_favorite_changes_favorites_only_witness :
  saved_as (trace_of (λ _, calm) empty_world (save_favorite plan_a)) "kP3vX0aQ" ∧
  docs (world_after (λ _, calm) empty_world (save_favorite plan_a)) "favorites"
  = <[ "kP3vX0aQ" := favorite_data 1700000000000 (VStr "# Plan A") ]> ∅.
Proof.
  assert (saved_as (trace_of (λ _, calm) empty_world (save_favorite plan_a))
            "kP3vX0aQ") as Hsaved by reflexivity.
  split; [exact Hsaved|].
  apply (save_favorite_changes_favorites_only (λ _, calm) empty_world plan_a), Hsaved.
Defined.

(** X5. An upload touches the cookbooks collection and one path of the
    bucket only: every other collection stays as it is, every cookbook
    record that was there is still there unchanged, and every path of the
    bucket other than the key of this upload holds what it held. *)
Theorem upload_cookbook_changes_one_key env w f :
  let w' := world_after env w (upload_cookbook (Some f)) in
  let key := storage_key (clock (env 0%nat)) (originalname f) in
  (∀ coll, coll ≠ "cookbooks" → docs w' coll = docs w coll) ∧
  (∀ id data, docs w "cookbooks" !! id = Some data →
              docs w' "cookbooks" !! id = Some data) ∧
  (∀ path, path ≠ key → bucket w' !! path = bucket w !! path) ∧
  (bucket w' !! key = bucket w !! key ∨ bucket w' !! key = Some (upload_blob f)).
Proof.
  unfold world_after. cbn zeta. rewrite run_upload_cookbook_some. cbn zeta.
  destruct (fault (env 1%nat)); [by repeat split; eauto|].
  assert (∀ path, path ≠ storage_key (clock (env 0%nat)) (originalname f) →
            bucket (put_blob (storage_key (clock (env 0%nat)) (originalname f))
                      (upload_blob f) w) !! path = bucket w !! path) as Hother.
  { intros path Hne. cbn. by rewrite lookup_insert_ne. }
  assert (bucket (put_blob (storage_key (clock (env 0%nat)) (originalname f))
                    (upload_blob f) w)
          !! storage_key (clock (env 0%nat)) (originalname f)
          = Some (upload_blob f)) as Hkey.
  { cbn. by rewrite lookup_insert_eq. }
  destruct (fault (env 3%nat)); [by repeat split; eauto|].
  destruct (docs w "cookbooks" !! new_id (env 3%nat)) eqn:Hid;
    [by repeat split; eauto|].
  cbn [fst snd]. split; [|split; [|split]].
  - intros coll Hne. by rewrite docs_put_doc_ne.
  - intros id data Hdoc. rewrite docs_put_doc, docs_put_blob.
    destruct (decide (new_id (env 3%nat) = id)) as [<-|Hne]; [congruence|].
    by rewrite lookup_insert_ne.
  - exact Hother.
  - by right.
Qed.

(** ** When the prompt can be built *)

(** Induction on values, with the elements of an array as smaller values. *)
Lemma value_array_ind (P : value → Prop) :
  (∀ v, (∀ items, v ≠ VArr items) → P v) →
  (∀ items, Forall P items → P (VArr items)) →
  ∀ v, P v.
Proof.
  intros Hbase Harr. fix IH 1.
  intros [| |b|n|s|t|items|props]; try (apply Hbase; intros; discriminate).
  apply Harr. induction items as [|x items IHitems]; constructor.
  - apply IH.
  - exact IHitems.
Qed.

Lemma ToString_printable h v :
  printable v = true ↔ ∃ s, ToString h v = Ok s.
Proof.
  induction v as [v Hv|items IH] using value_array_ind.
  - destruct v as [| |[]|n|s|t|items|props]; cbn; try (by split; eauto).
    + by destruct (Hv items).
    + destruct (obj_get "toString" props); split; eauto; try discriminate.
      by intros [s [=]].
  - cbn [printable ToString].
    assert (forallb (λ x, match x with
                          | VUndefined | VNull => true
                          | _ => printable x
                          end) items = true
            ↔ ∃ parts, sequence (map (λ x, match x with
                                          | VUndefined | VNull => Ok ""
                                          | _ => ToString h x
                                          end) items) = Ok parts) as Hitems.
    { induction IH as [|x items Hx _ IHitems]; cbn; [by split; eauto|].
      rewrite andb_true_iff, IHitems.
      assert (match x with VUndefined | VNull => true | _ => printable x end = true
              ↔ ∃ s, match x with
                     | VUndefined | VNull => Ok ""
                     | _ => ToString h x
                     end = Ok s) as ->.
      { destruct x; try exact Hx; by split; eauto. }
      split.
      - intros [[s ->] [parts ->]]. cbn. eauto.
      - destruct (match x with VUndefined | VNull => Ok "" | _ => ToString h x end);
          cbn; [|by intros [? [=]]].
        destruct (sequence _); cbn; [eauto|by intros [? [=]]]. }
    rewrite Hitems. split.
    + intros [parts ->]. cbn. eauto.
    + destruct (sequence _); cbn; [eauto|by intros [? [=]]].
Qed.

Lemma ToString_error h v e :
  ToString h v = Thrown e →
  e = TypeError "Cannot convert object to primitive value".
Proof.
  induction v as [v Hv|items IH] using value_array_ind.
  - destruct v as [| |[]|n|s|t|items|props]; cbn; try discriminate.
    + by destruct (Hv items).
    + destruct (obj_get "toString" props); [|discriminate]. by intros [= <-].
  - cbn [ToString].
    destruct (sequence _) as [parts|e'] eqn:Hseq; cbn; [discriminate|].
    intros [= ->]. revert Hseq.
    induction IH as [|x items Hx _ IHitems]; cbn; [discriminate|].
    destruct (match x with VUndefined | VNull => Ok "" | _ => ToString h x end)
      as [s|e'] eqn:Hhead; cbn.
    + destruct (sequence _); cbn; [discriminate|]. intros [= ->]. by apply IHitems.
    + intros [= ->]. destruct x; try discriminate; by apply Hx.
Qed.

Lemma prompt_of_printable h body :
  Forall (λ f, printable (prop f body) = true) plan_fields ↔
  ∃ p, prompt_of h body = Ok p.
Proof.
  unfold plan_fields, prompt_of, build_prompt.
  rewrite !Forall_cons, Forall_nil, !(ToString_printable h). split.
  - intros ([t ->] & [c ->] & [d ->] & [s ->] & _). cbn. eauto.
  - destruct (ToString h (prop "template" body)); cbn; [|by intros [? [=]]].
    destruct (ToString h (prop "cookbook" body)); cbn; [|by intros [? [=]]].
    destruct (ToString h (prop "dietaryNeeds" body)); cbn; [|by intros [? [=]]].
    destruct (ToString h (prop "specialRequests" body)); cbn; [|by intros [? [=]]].
    eauto 10.
Qed.

Lemma prompt_of_error h body e :
  prompt_of h body = Thrown e →
  e = TypeError "Cannot convert object to primitive value".
Proof.
  unfold prompt_of, build_prompt.
  destruct (ToString h (prop "template" body)) eqn:Ht; cbn;
    [|intros [= <-]; by eapply ToString_error].
  destruct (ToString h (prop "cookbook" body)) eqn:Hc; cbn;
    [|intros [= <-]; by eapply ToString_error].
  destruct (ToString h (prop "dietaryNeeds" body)) eqn:Hd; cbn;
    [|intros [= <-]; by eapply ToString_error].
  destruct (ToString h (prop "specialRequests" body)) eqn:Hs; cbn;
    [discriminate|intros [= <-]; by eapply ToString_error].
Qed.

(** X6. The generation service is called exactly when each of the four
    fields converts to a string, that is, when none of them is or contains
    an object with an own toString property (an absent field, a string, a
    number, a boolean and null always convert).  Otherwise building the
    prompt throws a TypeError, which is logged and answered with 500, and
    no service is called at all. *)
Theorem generate_plan_calls_service_iff_printable h env w body :
  let t := trace_of env w (generate_plan h body) in
  (Forall (λ f, printable (prop f body) = true) plan_fields →
     ∃ p r rest, prompt_of h body = Ok p ∧ t = EGenerateContent p r :: rest) ∧
  (¬ Forall (λ f, printable (prop f body) = true) plan_fields →
     t = [EConsoleError "Error generating plan:"
            (TypeError "Cannot convert object to primitive value");
          ERespond 500 (failure "Failed to generate meal plan.")] ∧
     Forall (λ e, service_call e = false) t).
Proof.
  cbn zeta. split.
  - intros [p Hp]%(prompt_of_printable h).
    destruct (generate_plan_calls_service h env w body p Hp) as (r & rest & Ht).
    by exists p, r, rest.
  - intros Hnot. rewrite (prompt_of_printable h) in Hnot.
    unfold trace_of. rewrite run_generate_plan.
    destruct (prompt_of h body) as [p|e] eqn:Hp; [destruct Hnot; eauto|].
    apply prompt_of_error in Hp as ->. cbn. split; [done|]. by repeat constructor.
Qed.

Lemma generate_plan_calls_service_iff_printable_witness :
  Forall (λ f, printable (prop f cookbook_only) = true) plan_fields ∧
  ∃ p r rest,
    prompt_of sample_host cookbook_only = Ok p ∧
    trace_of (λ _, calm) empty_world (generate_plan sample_host cookbook_only)
    = EGenerateContent p r :: rest.
Proof.
  assert (Forall (λ f, printable (prop f cookbook_only) = true) plan_fields) as Hall
    by (repeat constructor).
  split; [exact Hall|].
  apply (generate_plan_calls_service_iff_printable sample_host (λ _, calm)
           empty_world cookbook_only), Hall.
Defined.

(** X7. When the generation service answers and its text can be read, the
    handler does nothing else than pass that text on, unchanged, in a 200
    answer. *)
Theorem generate_plan_returns_the_text h env w body p g text :
  EGenerateContent p (Ok g) ∈ trace_of env w (generate_plan h body) →
  response_text g = Ok text →
  prompt_of h body = Ok p ∧
  trace_of env w (generate_plan h body)
  = [EGenerateContent p (Ok g);
     ERespond 200 [("success", VBool true); ("mealPlan", VStr text)]].
Proof.
  unfold trace_of. rewrite run_generate_plan.
  destruct (prompt_of h body) as [p'|e]; cbn.
  - destruct (fault (env 0%nat)); cbn.
    + intros Hin. find_event Hin.
    + destruct (response_text (produced (env 0%nat))) eqn:Htext; cbn;
        intros Hin Hg; find_event Hin; injection Hin as -> ->;
        [split; congruence | congruence].
  - intros Hin. find_event Hin.
Qed.

Lemma generate_plan_returns_the_text_witness :
  EGenerateContent
    (prompt_text "# Week" "Salt Fat Acid Heat" "vegetarian" "no mushrooms")
    (Ok (produced calm))
  ∈ trace_of (λ _, calm) empty_world (generate_plan sample_host full_request) ∧
  trace_of (λ _, calm) empty_world (generate_plan sample_host full_request)
  = [EGenerateContent
       (prompt_text "# Week" "Salt Fat Acid Heat" "vegetarian" "no mushrooms")
       (Ok (produced calm));
     ERespond 200 [("success", VBool true); ("mealPlan", VStr "# Week 1")]].
Proof.
  assert (EGenerateContent
            (prompt_text "# Week" "Salt Fat Acid Heat" "vegetarian" "no mushrooms")
            (Ok (produced calm))
          ∈ trace_of (λ _, calm) empty_world (generate_plan sample_host full_request))
    as Hin by (vm_compute; left).
  split; [exact Hin|].
  apply (generate_plan_returns_the_text sample_host (λ _, calm) empty_world
           full_request _ _ "# Week 1" Hin).
  reflexivity.
Defined.

(** ** Listed entries *)

Lemma obj_get_obj_set key key' v o :
  obj_get key (obj_set key' v o) = if String.eqb key' key then Some v else obj_get key o.
Proof.
  induction o as [|[k x] o IH]; cbn; [done|].
  destruct (String.eqb_spec k key') as [->|Hk]; cbn.
  - by destruct (String.eqb key' key).
  - destruct (String.eqb_spec k key) as [->|Hk']; [|done].
    by destruct (String.eqb_spec key' key) as [->|].
Qed.

Lemma obj_get_absent key o : key ∉ keys o → obj_get key o = None.
Proof.
  induction o as [|[k x] o IH]; cbn; [done|].
  intros Hnot. apply not_elem_of_cons in Hnot as [Hne Hnot].
  destruct (String.eqb_spec k key) as [->|]; [done|]. by apply IH.
Qed.

Lemma obj_get_spread key target source :
  NoDup (keys source) →
  obj_get key (spread target source)
  = match obj_get key source with
    | Some v => Some v
    | None => obj_get key target
    end.
Proof.
  unfold spread. revert target.
  induction source as [|[k v] source IH]; intros target Hnodup; cbn; [done|].
  apply NoDup_cons in Hnodup as [Hk Hnodup].
  rewrite IH, obj_get_obj_set by done.
  destruct (String.eqb_spec k key) as [->|]; [|done].
  by rewrite (obj_get_absent key source).
Qed.

(** X8. A listed entry carries every field of the stored document under
    the same name and with the same value.  Its id is the id of the
    document, unless the document itself has a field named id: the spread
    comes after the id in the object literal, so that field takes its
    place. *)
Theorem doc_entry_fields id data :
  NoDup (keys data) →
  entry_id (doc_entry (id, data))
  = match obj_get "id" data with
    | Some v => v
    | None => VStr id
    end ∧
  (∀ key, key ≠ "id" → entry_prop key (doc_entry (id, data)) = obj_get key data).
Proof.
  intros Hnodup. unfold doc_entry, entry_id, entry_prop, prop. cbn [fst snd].
  split.
  - rewrite obj_get_spread by done. by destruct (obj_get "id" data).
  - intros key Hne. rewrite obj_get_spread by done.
    destruct (obj_get key data); [done|].
    change (obj_get key [("id", VStr id)])
      with (if String.eqb "id" key then Some (VStr id) else None).
    destruct (String.eqb_spec "id" key) as [Heq|]; [|done]. by destruct Hne.
Qed.

Lemma doc_entry_fields_witness :
  NoDup (keys [("id", VStr "mine"); ("name", VStr "soups.pdf")]) ∧
  entry_id (doc_entry ("kP3vX0aQ", [("id", VStr "mine"); ("name", VStr "soups.pdf")]))
  = VStr "mine".
Proof.
  assert (NoDup (keys [("id", VStr "mine"); ("name", VStr "soups.pdf")])) as Hnodup.
  { apply NoDup_cons. split; [|apply NoDup_singleton].
    intros Hin. apply list_elem_of_singleton in Hin. discriminate Hin. }
  split; [exact Hnodup|].
  apply (doc_entry_fields "kP3vX0aQ" [("id", VStr "mine"); ("name", VStr "soups.pdf")]
           Hnodup).
Defined.

(** ** Storage keys *)

Lemma occurs_digits d : occurs "_"%char (NilEmpty.string_of_uint d) = false.
Proof. induction d; cbn; done. Qed.

Lemma Z_toString_no_underscore z : occurs "_"%char (Z_toString z) = false.
Proof.
  unfold Z_toString. destruct (Z.to_int z) as [d|d]; cbn.
  - destruct d; try apply (occurs_digits (_ d)); done.
  - destruct d; try apply (occurs_digits (_ d)); done.
Qed.

Lemma Z_toString_inj z z' : Z_toString z = Z_toString z' → z = z'.
Proof.
  unfold Z_toString. intros Heq. apply DecimalZ.to_int_inj.
  assert (∀ x, Z.to_int x ≠ Decimal.Pos Decimal.Nil ∧
               Z.to_int x ≠ Decimal.Neg Decimal.Nil) as Hnonnil.
  { intros [|p|p]; cbn; split; try discriminate; intros [= Hp];
      by apply DecimalPos.Unsigned.to_uint_nonnil in Hp. }
  assert (Some (Z.to_int z) = Some (Z.to_int z')) as [=]; [|done].
  rewrite <-(NilZero.isi (Z.to_int z)), <-(NilZero.isi (Z.to_int z'))
    by apply Hnonnil.
  by rewrite Heq.
Qed.

Lemma append_cons x (a s : string) : String x a +:+ s = String x (a +:+ s).
Proof. reflexivity. Qed.

Lemma append_nil_l (s : string) : "" +:+ s = s.
Proof. reflexivity. Qed.

(** The first underscore of a string splits it in one way only. *)
Lemma split_at_underscore a a' n n' :
  occurs "_"%char a = false → occurs "_"%char a' = false →
  a +:+ "_" +:+ n = a' +:+ "_" +:+ n' → a = a' ∧ n = n'.
Proof.
  revert a'. induction a as [|x a IH]; intros [|x' a']; cbn [occurs];
    rewrite ?append_cons, ?append_nil_l.
  - by intros _ _ [= ->].
  - intros _ Hno [= <- _]. by rewrite Ascii.eqb_refl in Hno.
  - intros Hno _ [= -> _]. by rewrite Ascii.eqb_refl in Hno.
  - intros [_ Ha]%orb_false_elim [_ Ha']%orb_false_elim [= -> Heq].
    by destruct (IH a' Ha Ha' Heq) as [-> ->].
Qed.

(** X9. Storage keys do not collide by accident: two uploads get the same
    key only if the clock showed the same millisecond and the files have
    the same original name. *)
Theorem storage_key_inj t n t' n' :
  storage_key t n = storage_key t' n' → t = t' ∧ n = n'.
Proof.
  unfold storage_key. intros Heq.
  apply (inj (String.append "cookbooks/")) in Heq.
  apply split_at_underscore in Heq as [Ht ->];
    [|apply Z_toString_no_underscore..].
  split; [|done]. by apply Z_toString_inj.
Qed.

Lemma storage_key_inj_witness :
  storage_key 1700000000000 "soups.pdf" = storage_key 1700000000000 "soups.pdf" ∧
  1700000000000 = 1700000000000 ∧ "soups.pdf" = "soups.pdf".
Proof.
  split; [reflexivity|].
  apply (storage_key_inj 1700000000000 "soups.pdf" 1700000000000 "soups.pdf").
  reflexivity.
Defined.

(** An upload that answered with success has written its blob and then its
    record, under an id that was free. *)
Lemma uploaded_inv env w f :
  uploaded (run env 0 w (upload_cookbook (Some f))).1.1 →
  docs w "cookbooks" !! new_id (env 3%nat) = None ∧
  (run env 0 w (upload_cookbook (Some f))).1.2
  = put_doc "cookbooks" (new_id (env 3%nat))
      (upload_data f (clock (env 0%nat)) (clock (env 2%nat)))
      (put_blob (storage_key (clock (env 0%nat)) (originalname f)) (upload_blob f) w).
Proof.
  unfold uploaded. rewrite run_upload_cookbook_some. cbn zeta.
  destruct (fault (env 1%nat)); [discriminate|].
  destruct (fault (env 3%nat)); [discriminate|].
  by destruct (docs w "cookbooks" !! new_id (env 3%nat)) eqn:Hid.
Qed.



(** ** Listings *)

Lemma listed_entries (m : gmap string object) :
  length (map doc_entry (map_to_list m)) = size m ∧
  ∀ id data, m !! id = Some data → doc_entry (id, data) ∈ map doc_entry (map_to_list m).
Proof.
  split.
  - by rewrite length_map, length_map_to_list.
  - intros id data Hdoc. apply list_elem_of_In, in_map, list_elem_of_In.
    by apply elem_of_map_to_list.
Qed.

(** X11. A listing whose read of the store does not fail answers 200 with
    one entry for each document of the collection, whatever the collection
    holds: nothing is left out, nothing is paged, and the world is not
    changed.  This holds for the favorites and for the cookbooks. *)
Theorem listings_return_every_document env w :
  (undisturbed (trace_of env w list_favorites) →
   ∃ entries,
     responses (trace_of env w list_favorites)
     = [(200, [("success", VBool true); ("favorites", VArr entries)])] ∧
     length entries = size (docs w "favorites") ∧
     ∀ id data, docs w "favorites" !! id = Some data →
                doc_entry (id, data) ∈ entries) ∧
  (undisturbed (trace_of env w list_cookbooks) →
   ∃ entries,
     responses (trace_of env w list_cookbooks)
     = [(200, [("success", VBool true); ("cookbooks", VArr entries)])] ∧
     length entries = size (docs w "cookbooks") ∧
     ∀ id data, docs w "cookbooks" !! id = Some data →
                doc_entry (id, data) ∈ entries).
Proof.
  unfold trace_of, list_favorites, list_cookbooks. rewrite !run_list.
  destruct (fault (env 0%nat)).
  - split; by intros [? _]%Forall_cons_1.
  - split; intros _; eexists; (split; [reflexivity|]); apply listed_entries.
Qed.

Lemma listings_return_every_document_witness :
  undisturbed (trace_of (λ _, calm) (outside mid_upload) list_cookbooks) ∧
  ∃ entries,
    responses (trace_of (λ _, calm) (outside mid_upload) list_cookbooks)
    = [(200, [("success", VBool true); ("cookbooks", VArr entries)])] ∧
    length entries = size (docs (outside mid_upload) "cookbooks").
Proof.
  assert (undisturbed (trace_of (λ _, calm) (outside mid_upload) list_cookbooks))
    as Hund by (vm_compute; repeat constructor).
  split; [exact Hund|].
  destruct (proj2 (listings_return_every_document (λ _, calm) (outside mid_upload))
              Hund) as (entries & Hres & Hlen & _).
  exists entries. split; [exact Hres|exact Hlen].
Defined.

Lemma serve_uploads h ups : ∀ w,
  Forall uploaded (serve h w (map as_upload ups)).1 →
  ∃ ids', length ids' = length ups ∧
    map_to_list (docs (serve h w (map as_upload ups)).2 "cookbooks")
    ≡ₚ zip_with uploaded_doc ids' ups ++ map_to_list (docs w "cookbooks") ∧
    NoDup ids' ∧
    (∀ id, id ∈ ids' → docs w "cookbooks" !! id = None) ∧
    Forall (λ up, is_Some (bucket (serve h w (map as_upload ups)).2
                             !! storage_key (clock (up.2 0%nat)) (originalname up.1)))
           ups ∧
    (∀ path, is_Some (bucket w !! path) →
             is_Some (bucket (serve h w (map as_upload ups)).2 !! path)).
Proof.
  induction ups as [|[f env] ups IH]; intros w.
  - cbn. intros _. exists []. repeat split; try done; try constructor.
    by intros id ?%elem_of_nil.
  - change (map as_upload ((f, env) :: ups))
      with ((PostUploadCookbook (Some f), env) :: map as_upload ups).
    rewrite serve_cons. cbn [fst snd handle].
    intros [Hup Hrest]%Forall_cons_1.
    apply uploaded_inv in Hup as [Hfree Hw1]. rewrite Hw1 in *.
    destruct (IH _ Hrest) as (ids' & Hlen & Hperm & Hnodup & Hfresh & Hblobs & Hmono).
    rewrite docs_put_doc, docs_put_blob in Hperm, Hfresh.
    exists (new_id (env 3%nat) :: ids'). split; [by cbn; rewrite Hlen|].
    split; [|split; [|split; [|split]]].
    + rewrite Hperm, map_to_list_insert by done. cbn.
      by rewrite Permutation_middle.
    + constructor; [|done]. intros Hin%Hfresh. by rewrite lookup_insert_eq in Hin.
    + intros id' [->|Hin%Hfresh]%elem_of_cons; [done|].
      by apply lookup_insert_None in Hin as [? _].
    + constructor; [|done]. cbn [fst snd]. apply Hmono. cbn.
      by rewrite lookup_insert_eq.
    + intros path Hpath. apply Hmono. cbn.
      destruct (decide (storage_key (clock (env 0%nat)) (originalname f) = path))
        as [->|Hne]; [by rewrite lookup_insert_eq|by rewrite lookup_insert_ne].
Qed.

Lemma doc_entry_uploaded_doc id up : doc_entry (uploaded_doc id up) = uploaded_entry id up.
Proof. reflexivity. Qed.

(** X12. Start from a world whose cookbooks collection is empty and serve
    any number of uploads one after the other, each answered with success.
    A listing of the cookbooks that follows, if its read of the store does
    not fail, returns exactly one entry per upload, under pairwise distinct
    ids, with the original name, the storage key and the date of that
    upload; and the bucket holds a blob under the key of every upload. *)
Theorem cookbooks_listing_after_uploads h w
    (ups : list (File * (nat → choice))) envG :
  docs w "cookbooks" = ∅ →
  let after := serve h w (map as_upload ups) in
  Forall uploaded after.1 →
  undisturbed (trace_of envG after.2 list_cookbooks) →
  ∃ ids entries,
    length ids = length ups ∧
    NoDup ids ∧
    responses (trace_of envG after.2 list_cookbooks)
    = [(200, [("success", VBool true); ("cookbooks", VArr entries)])] ∧
    entries ≡ₚ zip_with uploaded_entry ids ups ∧
    Forall (λ up, is_Some (bucket after.2
                             !! storage_key (clock (up.2 0%nat)) (originalname up.1)))
           ups.
Proof.
  intros Hempty after Hup Hund.
  destruct (serve_uploads h ups w Hup)
    as (ids & Hlen & Hperm & Hnodup & _ & Hblobs & _).
  rewrite Hempty, map_to_list_empty, app_nil_r in Hperm. fold after in Hperm, Hblobs.
  exists ids. unfold trace_of, list_cookbooks in *. rewrite run_list in *.
  destruct (fault (envG 0%nat)).
  { by apply Forall_cons_1 in Hund as [? _]. }
  eexists. split; [done|]. split; [done|]. split; [reflexivity|]. split; [|done].
  rewrite (Permutation_map doc_entry Hperm), map_zip_with.
  by erewrite zip_with_ext by (intros; apply doc_entry_uploaded_doc || reflexivity).
Qed.

Lemma cookbooks_listing_after_uploads_witness :
  Forall uploaded
    (serve sample_host empty_world (map as_upload [(cookbook_pdf, λ _, calm)])).1 ∧
  ∃ ids entries,
    length ids = 1%nat ∧
    responses
      (trace_of (λ _, calm)
         (serve sample_host empty_world (map as_upload [(cookbook_pdf, λ _, calm)])).2
         list_cookbooks)
    = [(200, [("success", VBool true); ("cookbooks", VArr entries)])] ∧
    entries ≡ₚ zip_with uploaded_entry ids [(cookbook_pdf, λ _, calm)].
Proof.
  assert (Forall uploaded
            (serve sample_host empty_world
               (map as_upload [(cookbook_pdf, λ _, calm)])).1) as Hup.
  { repeat constructor. }
  split; [exact Hup|].
  destruct (cookbooks_listing_after_uploads sample_host empty_world
              [(cookbook_pdf, λ _, calm)] (λ _, calm))
    as (ids & entries & Hlen & _ & Hres & Hperm & _).
  - reflexivity.
  - exact Hup.
  - vm_compute. repeat constructor.
  - exists ids, entries. split; [exact Hlen|]. split; [exact Hres|exact Hperm].
Defined.

(** ** Independence of saves and uploads *)

Lemma put_doc_commute coll coll' id id' data data' w :
  coll ≠ coll' →
  put_doc coll id data (put_doc coll' id' data' w)
  = put_doc coll' id' data' (put_doc coll id data w).
Proof.
  intros Hne. unfold put_doc, docs. cbn. f_equal.
  rewrite !lookup_insert_ne by done. by apply insert_insert_ne.
Qed.

Lemma put_blob_put_doc path b coll id data w :
  put_blob path b (put_doc coll id data w) = put_doc coll id data (put_blob path b w).
Proof. reflexivity. Qed.

(** X13. A save and an upload do not see each other.  Served in either
    order, each of them makes the same calls with the same outcomes and
    sends the same answer as it would alone, and the world at the end is
    the same. *)
Theorem save_and_upload_commute envS envU w body f :
  let wS := world_after envS w (save_favorite body) in
  let wU := world_after envU w (upload_cookbook (Some f)) in
  trace_of envU wS (upload_cookbook (Some f)) = trace_of envU w (upload_cookbook (Some f)) ∧
  trace_of envS wU (save_favorite body) = trace_of envS w (save_favorite body) ∧
  world_after envU wS (upload_cookbook (Some f))
  = world_after envS wU (save_favorite body).
Proof.
  cbn zeta. unfold trace_of, world_after.
  rewrite (run_save_favorite envS w), (run_upload_cookbook_some envU w). cbn zeta.
  destruct (truthy (prop "mealPlanMarkdown" body)) eqn:Htruthy;
    (destruct (fault (envS 1%nat)) eqn:HfS;
     [|destruct (docs w "favorites" !! new_id (envS 1%nat)) eqn:HidS]);
    (destruct (fault (envU 1%nat)) eqn:HfU;
     [|destruct (fault (envU 3%nat)) eqn:HfU3;
       [|destruct (docs w "cookbooks" !! new_id (envU 3%nat)) eqn:HidU]]);
    cbn [fst snd];
    rewrite run_save_favorite, run_upload_cookbook_some; cbn zeta;
    rewrite ?Htruthy, ?HfS, ?HfU, ?HfU3, ?docs_put_doc_ne, ?docs_put_blob,
      ?docs_put_doc_ne, ?HidS, ?HidU by done;
    cbn [fst snd]; repeat split;
    by rewrite ?put_blob_put_doc, ?(put_doc_commute "cookbooks" "favorites").
Qed.

(** ** Number of service calls *)

(** X14. No request causes more calls to the external services than its
    handler spells out, whether they succeed or fail: at most two for an
    upload (the blob, then the record) and at most one for any other
    request. *)
Theorem service_calls_bounded h r env w :
  (length (List.filter service_call (trace_of env w (handle h r)))
   ≤ max_service_calls r)%nat.
Proof.
  unfold trace_of. executions h r env w; cbn; lia.
Qed.

Lemma upload_cookbook_changes_one_key_witness :
  "favorites" ≠ "cookbooks" ∧
  docs (world_after (λ _, calm) (outside mid_upload) (upload_cookbook (Some cookbook_pdf)))
    "favorites"
  = docs (outside mid_upload) "favorites".
Proof.
  split; [discriminate|].
  apply (proj1 (upload_cookbook_changes_one_key (λ _, calm) (outside mid_upload)
                  cookbook_pdf)).
  discriminate.
Defined.
